(** * cookie-server: session-based authentication gateway

    A shallow embedding of [server.js] and of the middleware
    [middleware/is-authenticated.js], with the theorems that relate the
    natural-language specification to the code.

    The handlers of the source are [async] functions over three pieces of
    mutable state: the Mongo collection of users (reached through the
    Mongoose model [User]), the session object [req.session] that
    express-session attaches to the request, and the session store.  They
    are embedded as computations in a small state-and-exception monad [M];
    [try { ... } catch (error) { ... }] becomes [try_catch]. *)

From Stdlib Require Import String List Arith Bool Lia.
From stdpp Require Import base decidable option list gmap.
Import ListNotations.

Local Open Scope string_scope.
Local Open Scope nat_scope.
Local Open Scope list_scope.

(* ===================================================================== *)
(** * Data model *)
(* ===================================================================== *)

(** A Mongo [ObjectId] and an express-session id are opaque; only their
    equality and their freshness matter, so both are drawn from counters. *)
Definition ObjectId := nat.
Definition Sid := nat.

(** A document of the [users] collection. *)
Record User := mkUser {
  _id : ObjectId;
  username : string;
  password : string;
  role : string
}.

(** The object that sign-in stores under [req.session.user]:
    [{ id: user._id, username: user.username }]. *)
Module SessionUser.
Record t := mk { id : ObjectId; username : string }.
End SessionUser.

#[global] Instance SessionUser_eq_dec : EqDecision SessionUser.t.
Proof. solve_decision. Defined.

(** [req.session]: the session id and the payload.  The property [user] is
    [undefined] ([None]) until sign-in assigns it. *)
Record Session := mkSession {
  sessionID : Sid;
  user : option SessionUser.t
}.

(** The awaited operations of the external collaborators.  Each of them may
    reject; the source handles the rejection in a [catch] block or, for
    [destroy], in the callback's [err] argument. *)
Inductive Op :=
  | OpFindOne | OpFindById | OpSave | OpRemove | OpCompare | OpDestroy.

Inductive Error :=
  | Rejected (o : Op)     (* the promise of an external operation rejected *)
  | TypeError.            (* property access on [undefined] *)

Inductive Body :=
  | Message (m : string)  (* [{ message: m }] *)
  | ErrorBody (e : Error). (* [res.send(error)] *)

Record Response := mkResponse { status : nat; body : Body }.

(** The state outside the request.  [faults] is the schedule of the
    environment: one flag is consumed by each awaited external operation and
    [true] makes that operation reject; the empty schedule means that no
    operation fails any more. *)
Record World := mkWorld {
  users : list User;
  next_oid : ObjectId;
  sessions : gmap Sid (option SessionUser.t);
  next_sid : Sid;
  console : list Error;
  faults : list bool
}.

(** What a handler sees: the world and [req.session]. *)
Record Ctx := mkCtx {
  world : World;
  session : option Session
}.

Definition set_users (l : list User) (w : World) : World :=
  mkWorld l (next_oid w) (sessions w) (next_sid w) (console w) (faults w).
Definition set_next_oid (n : ObjectId) (w : World) : World :=
  mkWorld (users w) n (sessions w) (next_sid w) (console w) (faults w).
Definition set_sessions (m : gmap Sid (option SessionUser.t)) (w : World) : World :=
  mkWorld (users w) (next_oid w) m (next_sid w) (console w) (faults w).
Definition set_next_sid (n : Sid) (w : World) : World :=
  mkWorld (users w) (next_oid w) (sessions w) n (console w) (faults w).
Definition set_console (l : list Error) (w : World) : World :=
  mkWorld (users w) (next_oid w) (sessions w) (next_sid w) l (faults w).
Definition set_faults (f : list bool) (w : World) : World :=
  mkWorld (users w) (next_oid w) (sessions w) (next_sid w) (console w) f.

Definition on_world (f : World -> World) (c : Ctx) : Ctx :=
  mkCtx (f (world c)) (session c).
Definition set_session (s : option Session) (c : Ctx) : Ctx :=
  mkCtx (world c) s.

(* ===================================================================== *)
(** * The monad of handlers *)
(* ===================================================================== *)

Inductive Result (A : Type) :=
  | Ok (a : A)
  | Throw (e : Error).
Arguments Ok {A} a.
Arguments Throw {A} e.

Definition M (A : Type) : Type := Ctx -> Result A * Ctx.

Definition ret {A} (a : A) : M A := fun c => (Ok a, c).

Definition bind {A B} (m : M A) (k : A -> M B) : M B :=
  fun c =>
    match m c with
    | (Ok a, c') => k a c'
    | (Throw e, c') => (Throw e, c')
    end.

(** [try { body } catch (error) { handler(error) }] *)
Definition try_catch {A} (body : M A) (handler : Error -> M A) : M A :=
  fun c =>
    match body c with
    | (Ok a, c') => (Ok a, c')
    | (Throw e, c') => handler e c'
    end.

Definition gets {A} (f : Ctx -> A) : M A := fun c => (Ok (f c), c).
Definition modify (f : Ctx -> Ctx) : M unit := fun c => (Ok tt, f c).

Declare Scope js_scope.
Delimit Scope js_scope with js.
Notation "x <- m ;; k" := (bind m (fun x => k))
  (at level 100, m at next level, right associativity) : js_scope.
Notation "m ;;; k" := (bind m (fun _ => k))
  (at level 100, right associativity) : js_scope.
Local Open Scope js_scope.

(** [await op]: consume one flag of the fault schedule. *)
Definition await (o : Op) : M unit :=
  fun c =>
    match faults (world c) with
    | [] => (Ok tt, c)
    | false :: fs => (Ok tt, on_world (set_faults fs) c)
    | true :: fs => (Throw (Rejected o), on_world (set_faults fs) c)
    end.

(** [res.status(n).send({ message: m })] and [res.send({ message: m })]
    (the status of a response defaults to 200). *)
Definition send_message (n : nat) (m : string) : M Response :=
  ret (mkResponse n (Message m)).
Definition send_error (n : nat) (e : Error) : M Response :=
  ret (mkResponse n (ErrorBody e)).

(* ===================================================================== *)
(** * The collaborators *)
(* ===================================================================== *)

(** The Password Hasher ([bcrypt]): a one-way hash and its verification. *)
Class PasswordHasher := {
  bcrypt_hash : string -> string;
  bcrypt_verify : string -> string -> bool
}.

Definition by_username (name : string) (u : User) : bool :=
  String.eqb (username u) name.
Definition by_id (i : ObjectId) (u : User) : bool :=
  Nat.eqb (_id u) i.

(** [deleteOne({ _id: i })]: the first document with that id goes. *)
Fixpoint delete_one (i : ObjectId) (l : list User) : list User :=
  match l with
  | [] => []
  | u :: r => if by_id i u then r else u :: delete_one i r
  end.

Section Server.
Context `{PasswordHasher}.

(** ** The Mongoose model [User]

    [server.js] requires [./models/User], which is not among the source
    files.  The spec's Credential Store supports lookup by identity and by
    unique id, insert and delete; a new User's role defaults to "standard"
    and its secret is hashed by the Password Hasher before it is
    persisted. *)

(** Modelled from the spec: [User.findOne({ username })] of the missing
    [models/User], the lookup by identity. *)
Definition findOne (name : string) : M (option User) :=
  await OpFindOne ;;;
  gets (fun c => List.find (by_username name) (users (world c))).

(** Modelled from the spec: [User.findById(id)] of the missing
    [models/User], the lookup by unique id. *)
Definition findById (i : ObjectId) : M (option User) :=
  await OpFindById ;;;
  gets (fun c => List.find (by_id i) (users (world c))).

(** Modelled from the spec: [new User({ username, password })] of the
    missing [models/User]; the id is assigned at construction, the role
    takes the schema's default, "standard". *)
Definition new_User (name pw : string) : M User :=
  fun c =>
    (Ok (mkUser (next_oid (world c)) name pw "standard"),
     on_world (set_next_oid (S (next_oid (world c)))) c).

(** Modelled from the spec: [user.save()] of the missing [models/User];
    the secret is hashed by the Password Hasher, then the document is
    inserted. *)
Definition save (u : User) : M unit :=
  await OpSave ;;;
  modify (on_world (fun w =>
    set_users
      (users w ++ [mkUser (_id u) (username u) (bcrypt_hash (password u)) (role u)])
      w)).

(** Modelled from the spec: [user.remove()] of the missing [models/User];
    the document that has the id of [u] is deleted. *)
Definition remove (u : User) : M unit :=
  await OpRemove ;;;
  modify (on_world (fun w => set_users (delete_one (_id u) (users w)) w)).

(** ** The other collaborators *)

(** [bcrypt.compare(password, hash)] *)
Definition compare (pw hashed : string) : M bool :=
  await OpCompare ;;;
  ret (bcrypt_verify pw hashed).

(** [console.log(error)] *)
Definition console_log (e : Error) : M unit :=
  modify (on_world (fun w => set_console (console w ++ [e]) w)).

(** ** [req.session] (express-session) *)

(** [req.session.user = su]; a [TypeError] when [req.session] is
    [undefined]. *)
Definition assign_session_user (su : SessionUser.t) : M unit :=
  fun c =>
    match session c with
    | Some s => (Ok tt, set_session (Some (mkSession (sessionID s) (Some su))) c)
    | None => (Throw TypeError, c)
    end.

(** [req.session.user.id] *)
Definition session_user_id : M ObjectId :=
  fun c =>
    match session c with
    | Some s =>
        match user s with
        | Some su => (Ok (SessionUser.id su), c)
        | None => (Throw TypeError, c)
        end
    | None => (Throw TypeError, c)
    end.

(** [req.session.destroy(cb)]: express-session deletes [req.session] and
    asks the store to destroy the record; the result is the [err] that the
    callback receives. *)
Definition destroy (s : Session) : M (option Error) :=
  fun c =>
    match await OpDestroy (set_session None c) with
    | (Ok _, c') =>
        (Ok None,
         on_world (fun w => set_sessions (delete (sessionID s) (sessions w)) w) c')
    | (Throw e, c') => (Ok (Some e), c')
    end.

(* =================================================================== *)
(** * middleware/is-authenticated.js *)
(* =================================================================== *)

(** What a middleware does with the request: it calls [next()] or it
    sends a response itself. *)
Inductive Gate :=
  | Next
  | Sent (r : Response).

Definition isAuthenticated : M Gate :=
  s <- gets session ;;
  match s with
  | Some s' =>
      match user s' with
      | Some _ => ret Next
      | None => ret (Sent (mkResponse 401 (Message "You must be logged in to access this")))
      end
  | None => ret (Sent (mkResponse 401 (Message "You must be logged in to access this")))
  end.

(** [app.METHOD(path, middleware, handler)] *)
Definition guarded (middleware : M Gate) (handler : M Response) : M Response :=
  g <- middleware ;;
  match g with
  | Next => handler
  | Sent r => ret r
  end.

(* =================================================================== *)
(** * server.js *)
(* =================================================================== *)

(** [app.post("/sign-up", ...)] *)
Definition sign_up (name pw : string) : M Response :=
  try_catch
    (existing <- findOne name ;;
     match existing with
     | Some _ => send_message 400 "Username already taken."
     | None =>
         u <- new_User name pw ;;
         save u ;;;
         send_message 201 "User registered successfully."
     end)
    (fun error => send_error 400 error).

(** [app.post("/sign-in", ...)].  The condition
    [!user || !(await bcrypt.compare(password, user.password))] evaluates
    [compare] only when the user was found. *)
Definition sign_in (name pw : string) : M Response :=
  try_catch
    (found <- findOne name ;;
     match found with
     | None => send_message 401 "Authentication failed"
     | Some u =>
         ok <- compare pw (password u) ;;
         if ok then
           assign_session_user (SessionUser.mk (_id u) (username u)) ;;;
           send_message 200 "Logged in successfully"
         else send_message 401 "Authentication failed"
     end)
    (fun error => console_log error ;;; send_error 500 error).

(** [app.post("/logout", ...)] *)
Definition logout : M Response :=
  s <- gets session ;;
  match s with
  | Some s' =>
      err <- destroy s' ;;
      match err with
      | Some _ => send_message 500 "Could not log out, please try again"
      | None => send_message 200 "Logout successful"
      end
  | None => send_message 400 "You are not logged in"
  end.

(** The handler of [app.delete("/user/:id", isAuthenticated, ...)] *)
Definition delete_user (params_id : ObjectId) : M Response :=
  try_catch
    (id <- session_user_id ;;
     admin <- findById id ;;
     if match admin with
        | None => true
        | Some a => negb (String.eqb (role a) "admin")
        end
     then send_message 401 "Unauthorized"
     else
       target <- findById params_id ;;
       match target with
       | None => send_message 404 "User not found"
       | Some u =>
           remove u ;;;
           send_message 200 "User deleted successfully"
       end)
    (fun error => send_error 500 error).

(** The handler of [app.get("/is-authenticated", isAuthenticated, ...)] *)
Definition is_authenticated_probe : M Response :=
  send_message 200 "Authenticated".

(** [app.delete("/user/:id", isAuthenticated, ...)] and
    [app.get("/is-authenticated", isAuthenticated, ...)] *)
Definition delete_route (params_id : ObjectId) : M Response :=
  guarded isAuthenticated (delete_user params_id).

Definition is_authenticated_route : M Response :=
  guarded isAuthenticated is_authenticated_probe.

(** ** The routes behind the session middleware *)

Inductive Endpoint :=
  | PostSignUp (name pw : string)
  | PostSignIn (name pw : string)
  | PostLogout
  | DeleteUser (params_id : ObjectId)
  | GetIsAuthenticated.

Definition dispatch (e : Endpoint) : M Response :=
  match e with
  | PostSignUp name pw => sign_up name pw
  | PostSignIn name pw => sign_in name pw
  | PostLogout => logout
  | DeleteUser i => delete_route i
  | GetIsAuthenticated => is_authenticated_route
  end.

(** A request carries the session cookie, if the client holds one. *)
Record Request := mkRequest { cookie : option Sid; endpoint : Endpoint }.
Record Reply := mkReply { response : Response; set_cookie : option Sid }.

(** express-session looks the cookie's id up in the store (a record whose
    TTL has run out is no longer there). *)
Definition lookup_session (ck : option Sid) (w : World) : option Session :=
  match ck with
  | Some sid =>
      match sessions w !! sid with
      | Some payload => Some (mkSession sid payload)
      | None => None
      end
  | None => None
  end.

(** [session({ resave: false, saveUninitialized: true, ... })]: an unknown
    or missing cookie gets a new session under a fresh id; when the
    response ends, a session that is new or was modified is saved and its
    cookie is set; a destroyed session is not saved. *)
Definition serve (r : Request) (w : World) : Reply * World :=
  let found := lookup_session (cookie r) w in
  let s0 :=
    match found with
    | Some s => s
    | None => mkSession (next_sid w) None
    end in
  let w0 :=
    match found with
    | Some _ => w
    | None => set_next_sid (S (next_sid w)) w
    end in
  let is_new := match found with Some _ => false | None => true end in
  let '(res, c1) := dispatch (endpoint r) (mkCtx w0 (Some s0)) in
  let resp :=
    match res with
    | Ok resp => resp
    | Throw e => mkResponse 500 (ErrorBody e)
    end in
  match session c1 with
  | Some s1 =>
      if is_new || negb (bool_decide (user s1 = user s0))
      then (mkReply resp (Some (sessionID s1)),
            set_sessions (<[sessionID s1 := user s1]> (sessions (world c1))) (world c1))
      else (mkReply resp None, world c1)
  | None => (mkReply resp None, world c1)
  end.

(** The client keeps the cookie it has unless the reply sets one. *)
Definition cookie_jar (ck : option Sid) (rp : Reply) : option Sid :=
  match set_cookie rp with
  | Some sid => Some sid
  | None => ck
  end.

End Server.

(** A sequence of requests, one after the other. *)
Fixpoint serve_all `{PasswordHasher} (rs : list Request) (w : World) : list Reply * World :=
  match rs with
  | [] => ([], w)
  | r :: rs' =>
      let '(rp, w1) := serve r w in
      let '(rps, w2) := serve_all rs' w1 in
      (rp :: rps, w2)
  end.

(* ===================================================================== *)
(** * Vocabulary of the specification *)
(* ===================================================================== *)

(** The session's user reference: absent when the request has no session
    or when the session has no [user]. *)
Definition user_reference (c : Ctx) : option SessionUser.t :=
  match session c with
  | Some s => user s
  | None => None
  end.

(** "The session payload is present and contains a user reference." *)
Definition logged_in (c : Ctx) : Prop :=
  exists s su, session c = Some s /\ user s = Some su.

(** The response of the Auth Guard when it denies. *)
Definition deny_401 : Response :=
  mkResponse 401 (Message "You must be logged in to access this").

(** No external operation is scheduled to fail. *)
Definition reliable (c : Ctx) : Prop := faults (world c) = [].

(** The collection is well formed: ids are unique, as MongoDB guarantees
    for [_id], identities are unique, and every id was drawn from the
    counter. *)
Definition store_invariant (w : World) : Prop :=
  NoDup (map _id (users w)) /\
  NoDup (map username (users w)) /\
  Forall (fun u => _id u < next_oid w) (users w).

(** The store's [destroy] is the next external operation of a logout; it
    fails when the next flag of the schedule says so. *)
Definition destroy_fails (c : Ctx) : bool :=
  match faults (world c) with
  | true :: _ => true
  | _ => false
  end.

(** The effect of the delete route on the collection, for every session
    and every fault schedule. *)
Definition delete_effect (params_id : ObjectId) (c : Ctx) (r : Response) (c' : Ctx) : Prop :=
  (status r = 200 /\
   exists t l1 l2,
     _id t = params_id /\
     users (world c) = l1 ++ t :: l2 /\
     users (world c') = l1 ++ l2) \/
  ((status r = 401 \/ status r = 404 \/ status r = 500) /\
   users (world c') = users (world c)).

(** Reasoning about a handler for every fault schedule:

    [wp m c Q]: running [m] from [c] ends in a result and a context that
    satisfy [Q]. *)
Definition wp {A} (m : M A) (c : Ctx) (Q : Result A -> Ctx -> Prop) : Prop :=
  Q (fst (m c)) (snd (m c)).

(** A hasher for the concrete runs: it tags the secret. *)
Definition tagging_hasher : PasswordHasher :=
  {| bcrypt_hash := fun p => String.append "$2b$" p;
     bcrypt_verify := fun p h => String.eqb h (String.append "$2b$" p) |}.

(** One administrator, one standard user, no session, nothing scheduled
    to fail. *)
Definition root_user : User := mkUser 0 "root" "$2b$toor" "admin".
Definition alice_user : User := mkUser 1 "alice" "$2b$pw1" "standard".
Definition two_users : World := mkWorld [root_user; alice_user] 2 ∅ 0 [] [].

Definition root_session : Session :=
  mkSession 7 (Some (SessionUser.mk 0 "root")).
Definition alice_session : Session :=
  mkSession 8 (Some (SessionUser.mk 1 "alice")).
Definition anonymous_session : Session := mkSession 9 None.

(** The world in which the three sessions above are stored. *)
Definition three_sessions : World :=
  set_next_sid 10
    (set_sessions
       (<[7 := user root_session]>
          (<[8 := user alice_session]> (<[9 := user anonymous_session]> ∅)))
       two_users).

(** The requests of the run below: alice signs in, root signs in, root
    deletes alice. *)
Definition delete_under_session : list Request :=
  [ mkRequest None (PostSignIn "alice" "pw1");
    mkRequest None (PostSignIn "root" "toor");
    mkRequest (Some 1) (DeleteUser 1) ].

(* ===================================================================== *)
(** * Basic facts *)
(* ===================================================================== *)

Section Facts.
Context `{PasswordHasher}.

Lemma await_reliable o c : reliable c -> await o c = (Ok tt, c).
Proof. unfold reliable, await. intros ->. reflexivity. Qed.

Lemma findOne_reliable name c :
  reliable c ->
  findOne name c = (Ok (List.find (by_username name) (users (world c))), c).
Proof. intros Hr. unfold findOne, bind. rewrite await_reliable; auto. Qed.

Lemma findById_reliable i c :
  reliable c ->
  findById i c = (Ok (List.find (by_id i) (users (world c))), c).
Proof. intros Hr. unfold findById, bind. rewrite await_reliable; auto. Qed.

Lemma logged_in_reference c : logged_in c <-> is_Some (user_reference c).
Proof.
  unfold logged_in, user_reference. split.
  - intros (s & su & -> & ->). eauto.
  - destruct (session c) as [s|]; intros [su Hsu]; [eauto | discriminate].
Qed.

Lemma isAuthenticated_eq c :
  isAuthenticated c =
    (Ok (match user_reference c with
         | Some _ => Next
         | None => Sent deny_401
         end), c).
Proof.
  unfold isAuthenticated, user_reference, bind, gets.
  destruct (session c) as [s|]; [destruct (user s) |]; reflexivity.
Qed.

Lemma find_by_id_id i l u : List.find (by_id i) l = Some u -> _id u = i.
Proof.
  intros Hf. apply List.find_some in Hf as [_ Hb].
  unfold by_id in Hb. now apply Nat.eqb_eq.
Qed.

Lemma find_by_id_none i l :
  List.find (by_id i) l = None <-> ~ In i (map _id l).
Proof.
  induction l as [|u l IH]; simpl; [tauto|].
  unfold by_id at 1. destruct (Nat.eqb_spec (_id u) i) as [E|E].
  - split; [discriminate | tauto].
  - rewrite IH. tauto.
Qed.

(** The list splits around the document that [delete_one] takes out. *)
Lemma delete_one_split i l t :
  List.find (by_id i) l = Some t ->
  exists l1 l2,
    l = l1 ++ t :: l2 /\ delete_one i l = l1 ++ l2 /\
    Forall (fun u => _id u <> i) l1.
Proof.
  induction l as [|u l IH]; simpl; [discriminate|].
  unfold by_id at 1 3. destruct (Nat.eqb_spec (_id u) i) as [E|E].
  - intros [= ->]. exists [], l. auto.
  - intros Hf. destruct (IH Hf) as (l1 & l2 & -> & -> & Hall).
    exists (u :: l1), l2. repeat split; auto.
Qed.


Lemma delete_one_incl i l u : In u (delete_one i l) -> In u l.
Proof.
  induction l as [|v l IH]; simpl; [tauto|].
  destruct (by_id i v); simpl; tauto.
Qed.

Lemma by_id_spec i u : reflect (_id u = i) (by_id i u).
Proof. unfold by_id. apply Nat.eqb_spec. Qed.

Lemma delete_one_other i j l :
  j <> i -> List.find (by_id j) (delete_one i l) = List.find (by_id j) l.
Proof.
  intros Hne. induction l as [|u l IH]; simpl; [reflexivity|].
  destruct (by_id_spec i u) as [E|E]; destruct (by_id_spec j u) as [F|F];
    simpl; try congruence.
  - destruct (by_id_spec j u); [reflexivity | contradiction].
  - destruct (by_id_spec j u); [contradiction | assumption].
Qed.

Lemma delete_one_gone i l :
  NoDup (map _id l) -> List.find (by_id i) (delete_one i l) = None.
Proof.
  induction l as [|u l IH]; simpl; [reflexivity|].
  intros Hnd. apply NoDup_cons in Hnd as [Hnotin Hnd].
  destruct (by_id_spec i u) as [E|E].
  - subst i. apply find_by_id_none. now rewrite <- list_elem_of_In.
  - simpl. destruct (by_id_spec i u); [contradiction | auto].
Qed.

Lemma find_none_intro {A} (f : A -> bool) (l : list A) :
  (forall x, In x l -> f x = false) -> List.find f l = None.
Proof.
  induction l as [|a l IH]; simpl; [reflexivity |].
  intros Hall. rewrite (Hall a) by auto. apply IH. auto.
Qed.

Lemma delete_one_gone_by_username i l t :
  NoDup (map username l) ->
  List.find (by_id i) l = Some t ->
  List.find (by_username (username t)) (delete_one i l) = None.
Proof.
  intros Hnd Hf.
  destruct (delete_one_split _ _ _ Hf) as (l1 & l2 & -> & -> & _).
  rewrite map_app in Hnd. simpl in Hnd.
  apply NoDup_app in Hnd as (_ & Hcross & Hnd2).
  apply NoDup_cons in Hnd2 as [Hnot2 _].
  apply find_none_intro. intros x Hx. unfold by_username.
  apply String.eqb_neq. intros Heq.
  apply in_app_iff in Hx as [Hx | Hx].
  - apply (Hcross (username x)).
    + apply list_elem_of_In, in_map, Hx.
    + rewrite Heq. left.
  - apply Hnot2. rewrite <- Heq. apply list_elem_of_In, in_map, Hx.
Qed.

End Facts.

(* ===================================================================== *)
(** * The Auth Guard *)
(* ===================================================================== *)

(** C1.  The Auth Guard lets a request through to the protected handler if
    and only if the request's session is present and holds a user
    reference.  In every other case the response is 401 with the body
    [{ message: "You must be logged in to access this" }], whatever the
    protected handler is: the handler does not run and nothing changes. *)
Theorem isAuthenticated_allows_iff_logged_in (handler : M Response) (c : Ctx) :
  (isAuthenticated c = (Ok Next, c) <-> logged_in c) /\
  (logged_in c -> guarded isAuthenticated handler c = handler c) /\
  (~ logged_in c ->
   isAuthenticated c =
     (Ok (Sent (mkResponse 401 (Message "You must be logged in to access this"))), c) /\
   guarded isAuthenticated handler c =
     (Ok (mkResponse 401 (Message "You must be logged in to access this")), c)).
Proof.
  rewrite logged_in_reference. unfold guarded, bind.
  rewrite isAuthenticated_eq.
  destruct (user_reference c) as [su|].
  - split; [split; [eauto | reflexivity] |].
    split; [reflexivity | intros Hno; contradict Hno; eauto].
  - split; [split; [intros [=] | intros [? [=]]] |].
    split; [intros [? [=]] | intros _; split; reflexivity].
Qed.

(** C10.  The decision of the Auth Guard depends on the session's user
    reference alone: two requests with equal user references get the same
    outcome, whatever else differs between them (the rest of the session,
    the stores, the fault schedule). *)
Theorem isAuthenticated_depends_on_user_reference_only (c1 c2 : Ctx) :
  user_reference c1 = user_reference c2 ->
  fst (isAuthenticated c1) = fst (isAuthenticated c2).
Proof. intros Href. rewrite !isAuthenticated_eq. simpl. now rewrite Href. Qed.

(** The same holds when the two references are merely both present or both
    absent. *)
Lemma isAuthenticated_depends_on_presence_only (c1 c2 : Ctx) :
  (is_Some (user_reference c1) <-> is_Some (user_reference c2)) ->
  fst (isAuthenticated c1) = fst (isAuthenticated c2).
Proof.
  intros Hiff. rewrite !isAuthenticated_eq. simpl.
  destruct (user_reference c1), (user_reference c2); try reflexivity.
  - destruct Hiff as [Hiff _]. destruct Hiff as [? [=]]. eauto.
  - destruct Hiff as [_ Hiff]. destruct Hiff as [? [=]]. eauto.
Qed.

Lemma isAuthenticated_allows_iff_logged_in_witness :
  logged_in (mkCtx two_users (Some root_session)) /\
  guarded isAuthenticated is_authenticated_probe (mkCtx two_users (Some root_session)) =
    (Ok (mkResponse 200 (Message "Authenticated")), mkCtx two_users (Some root_session)) /\
  guarded isAuthenticated is_authenticated_probe (mkCtx two_users (Some anonymous_session)) =
    (Ok (mkResponse 401 (Message "You must be logged in to access this")),
     mkCtx two_users (Some anonymous_session)).
Proof.
  assert (Hin : logged_in (mkCtx two_users (Some root_session))).
  { exists root_session, (SessionUser.mk 0 "root"). split; reflexivity. }
  assert (Hout : ~ logged_in (mkCtx two_users (Some anonymous_session))).
  { intros (s & su & Hs & Hu). simpl in Hs. injection Hs as <-. discriminate Hu. }
  split; [exact Hin | split].
  - exact (proj1 (proj2 (isAuthenticated_allows_iff_logged_in
                           is_authenticated_probe _)) Hin).
  - exact (proj2 (proj2 (proj2 (isAuthenticated_allows_iff_logged_in
                                  is_authenticated_probe _)) Hout)).
Defined.

Lemma isAuthenticated_depends_on_user_reference_only_witness :
  user_reference (mkCtx two_users (Some root_session)) =
    user_reference (mkCtx three_sessions (Some (mkSession 42 (Some (SessionUser.mk 0 "root"))))) /\
  fst (isAuthenticated (mkCtx two_users (Some root_session))) =
    fst (isAuthenticated
           (mkCtx three_sessions (Some (mkSession 42 (Some (SessionUser.mk 0 "root")))))).
Proof.
  split; [reflexivity |].
  apply isAuthenticated_depends_on_user_reference_only. reflexivity.
Defined.

(* ===================================================================== *)
(** * Sign-up and sign-in *)
(* ===================================================================== *)

Section Credentials.
Context `{PasswordHasher}.

(** C2.  When no store operation fails: if a User with the given identity
    exists, sign-up answers 400 "Username already taken." and creates no
    User; otherwise it persists exactly one new User, with the hashed
    secret and the role "standard", and answers 201 with a success message.
    The session of the request is left as it was. *)
Theorem sign_up_conflict_or_created (name pw : string) (c : Ctx) :
  reliable c ->
  (forall u, List.find (by_username name) (users (world c)) = Some u ->
     sign_up name pw c =
       (Ok (mkResponse 400 (Message "Username already taken.")), c)) /\
  (List.find (by_username name) (users (world c)) = None ->
     exists c',
       sign_up name pw c =
         (Ok (mkResponse 201 (Message "User registered successfully.")), c') /\
       users (world c') =
         users (world c) ++
           [mkUser (next_oid (world c)) name (bcrypt_hash pw) "standard"] /\
       session c' = session c /\
       sessions (world c') = sessions (world c)).
Proof.
  intros Hr. unfold sign_up, try_catch, bind.
  rewrite findOne_reliable by assumption.
  split.
  - intros u ->. reflexivity.
  - intros ->. unfold new_User, save, bind.
    rewrite await_reliable by assumption.
    eexists. split; [reflexivity |]. simpl. auto.
Qed.

(** C3.  One sign-in with an identity that is not in the Credential Store
    and one with a registered identity and a secret that the Password
    Hasher does not verify against the stored hash get the same response,
    401 "Authentication failed" (the lookups and the verification themselves
    not failing); neither call touches the session or the stores. *)
Theorem sign_in_failures_indistinguishable
    (name1 pw1 : string) (c1 : Ctx) (name2 pw2 : string) (c2 : Ctx) (u : User) :
  reliable c1 -> reliable c2 ->
  List.find (by_username name1) (users (world c1)) = None ->
  List.find (by_username name2) (users (world c2)) = Some u ->
  bcrypt_verify pw2 (password u) = false ->
  sign_in name1 pw1 c1 =
    (Ok (mkResponse 401 (Message "Authentication failed")), c1) /\
  sign_in name2 pw2 c2 =
    (Ok (mkResponse 401 (Message "Authentication failed")), c2) /\
  fst (sign_in name1 pw1 c1) = fst (sign_in name2 pw2 c2).
Proof.
  intros Hr1 Hr2 Hnone Hsome Hbad.
  assert (E1 : sign_in name1 pw1 c1 =
               (Ok (mkResponse 401 (Message "Authentication failed")), c1)).
  { unfold sign_in, try_catch, bind.
    rewrite findOne_reliable, Hnone by assumption. reflexivity. }
  assert (E2 : sign_in name2 pw2 c2 =
               (Ok (mkResponse 401 (Message "Authentication failed")), c2)).
  { unfold sign_in, try_catch, bind.
    rewrite findOne_reliable, Hsome by assumption.
    unfold compare, bind. rewrite await_reliable by assumption.
    simpl. rewrite Hbad. reflexivity. }
  rewrite E1, E2. auto.
Qed.

End Credentials.

Lemma sign_up_conflict_or_created_witness :
  reliable (mkCtx two_users None) /\
  sign_up (H := tagging_hasher) "alice" "pw2" (mkCtx two_users None) =
    (Ok (mkResponse 400 (Message "Username already taken.")), mkCtx two_users None) /\
  exists c',
    sign_up (H := tagging_hasher) "bob" "pw3" (mkCtx two_users None) =
      (Ok (mkResponse 201 (Message "User registered successfully.")), c') /\
    users (world c') = [root_user; alice_user; mkUser 2 "bob" "$2b$pw3" "standard"].
Proof.
  split; [reflexivity | split].
  - apply (proj1 (sign_up_conflict_or_created (H := tagging_hasher)
                    "alice" "pw2" (mkCtx two_users None) eq_refl) alice_user).
    reflexivity.
  - destruct (proj2 (sign_up_conflict_or_created (H := tagging_hasher)
                       "bob" "pw3" (mkCtx two_users None) eq_refl) eq_refl)
      as (c' & Hrun & Husers & _).
    exists c'. split; [exact Hrun | exact Husers].
Defined.

Lemma sign_in_failures_indistinguishable_witness :
  fst (sign_in (H := tagging_hasher) "mallory" "guess" (mkCtx two_users None)) =
  fst (sign_in (H := tagging_hasher) "alice" "guess" (mkCtx two_users (Some anonymous_session))).
Proof.
  apply (sign_in_failures_indistinguishable (H := tagging_hasher)
           "mallory" "guess" (mkCtx two_users None)
           "alice" "guess" (mkCtx two_users (Some anonymous_session)) alice_user);
    reflexivity.
Defined.

(* ===================================================================== *)
(** * Logout *)
(* ===================================================================== *)


Lemma logout_no_session (c : Ctx) :
  session c = None ->
  logout c = (Ok (mkResponse 400 (Message "You are not logged in")), c).
Proof. intros Hs. unfold logout, bind, gets. rewrite Hs. reflexivity. Qed.

(** What logout does to a request that has a session object, logged in or
    not. *)
Lemma logout_with_session (c : Ctx) (s : Session) :
  session c = Some s ->
  session (snd (logout c)) = None /\
  users (world (snd (logout c))) = users (world c) /\
  if destroy_fails c
  then fst (logout c) =
         Ok (mkResponse 500 (Message "Could not log out, please try again")) /\
       sessions (world (snd (logout c))) = sessions (world c)
  else fst (logout c) = Ok (mkResponse 200 (Message "Logout successful")) /\
       sessions (world (snd (logout c))) = delete (sessionID s) (sessions (world c)).
Proof.
  intros Hs. unfold logout, bind, gets, destroy, await, destroy_fails.
  rewrite Hs. simpl.
  destruct (faults (world c)) as [|[] fs]; simpl; auto.
Qed.

(** C4, as the code has it.  A request without a session object gets 400
    "You are not logged in".  Otherwise, whether or not the session holds a
    logged-in user, the session record is destroyed: 500 "Could not log out,
    please try again" when the store's destroy fails (the record stays),
    200 "Logout successful" when it succeeds, after which the store does
    not know the session id and every other record is as before.  In both
    cases [req.session] is gone. *)
Theorem logout_outcomes (c : Ctx) :
  (session c = None ->
   logout c = (Ok (mkResponse 400 (Message "You are not logged in")), c)) /\
  (forall s, session c = Some s ->
   session (snd (logout c)) = None /\
   if destroy_fails c
   then fst (logout c) =
          Ok (mkResponse 500 (Message "Could not log out, please try again")) /\
        sessions (world (snd (logout c))) = sessions (world c)
   else fst (logout c) = Ok (mkResponse 200 (Message "Logout successful")) /\
        sessions (world (snd (logout c))) !! sessionID s = None /\
        forall sid, sid <> sessionID s ->
          sessions (world (snd (logout c))) !! sid = sessions (world c) !! sid).
Proof.
  split; [apply logout_no_session |].
  intros s Hs.
  destruct (logout_with_session c s Hs) as (Hgone & _ & Hrest).
  split; [exact Hgone |].
  destruct (destroy_fails c); [exact Hrest |].
  destruct Hrest as [Hresp ->]. split; [exact Hresp |]. split.
  - apply lookup_delete_eq.
  - intros sid Hne. apply lookup_delete_ne. congruence.
Qed.

Lemma logout_outcomes_witness :
  logout (mkCtx three_sessions None) =
    (Ok (mkResponse 400 (Message "You are not logged in")), mkCtx three_sessions None) /\
  fst (logout (mkCtx three_sessions (Some alice_session))) =
    Ok (mkResponse 200 (Message "Logout successful")) /\
  sessions (world (snd (logout (mkCtx three_sessions (Some alice_session))))) !! 8 = None /\
  fst (logout (mkCtx (set_faults [true] three_sessions) (Some alice_session))) =
    Ok (mkResponse 500 (Message "Could not log out, please try again")).
Proof.
  split; [| split; [| split]].
  - exact (proj1 (logout_outcomes (mkCtx three_sessions None)) eq_refl).
  - exact (proj1 (proj2 (proj2 (logout_outcomes (mkCtx three_sessions (Some alice_session)))
                           alice_session eq_refl))).
  - exact (proj1 (proj2 (proj2 (proj2 (logout_outcomes (mkCtx three_sessions (Some alice_session)))
                           alice_session eq_refl)))).
  - exact (proj1 (proj2 (proj2 (logout_outcomes
                           (mkCtx (set_faults [true] three_sessions) (Some alice_session)))
                           alice_session eq_refl))).
Defined.

(** C4, as the claim words it, fails on the code.  The two failure messages
    of the code carry no final full stop, so the responses are not the ones
    the claim quotes; and "no session on the request" is not "the requester
    is not logged in": a requester who is not logged in but has a session
    object (express-session gives every request one) is not answered 400,
    the anonymous session is destroyed and the answer is 200. *)
Lemma logout_claim_counterexample :
  (fst (logout (mkCtx three_sessions None)) =
     Ok (mkResponse 400 (Message "You are not logged in")) /\
   Message "You are not logged in" <> Message "You are not logged in.") /\
  (fst (logout (mkCtx (set_faults [true] three_sessions) (Some alice_session))) =
     Ok (mkResponse 500 (Message "Could not log out, please try again")) /\
   Message "Could not log out, please try again" <>
     Message "Could not log out, please try again.") /\
  (user_reference (mkCtx three_sessions (Some anonymous_session)) = None /\
   fst (logout (mkCtx three_sessions (Some anonymous_session))) =
     Ok (mkResponse 200 (Message "Logout successful"))).
Proof.
  repeat split; try reflexivity; intros [=].
Qed.

(* ===================================================================== *)
(** * Privileged delete *)
(* ===================================================================== *)


Lemma guarded_logged_in (handler : M Response) (c : Ctx) (su : SessionUser.t) :
  user_reference c = Some su ->
  guarded isAuthenticated handler c = handler c.
Proof.
  intros Href. unfold guarded, bind. rewrite isAuthenticated_eq, Href. reflexivity.
Qed.

Lemma session_user_id_logged_in (c : Ctx) (su : SessionUser.t) :
  user_reference c = Some su ->
  session_user_id c = (Ok (SessionUser.id su), c).
Proof.
  unfold user_reference, session_user_id.
  destruct (session c) as [s|]; [| discriminate]. intros ->. reflexivity.
Qed.

(** The route on a logged-in request when no store operation fails. *)
Lemma delete_route_reliable (params_id : ObjectId) (c : Ctx) (su : SessionUser.t) :
  user_reference c = Some su -> reliable c ->
  delete_route params_id c =
    match List.find (by_id (SessionUser.id su)) (users (world c)) with
    | None => (Ok (mkResponse 401 (Message "Unauthorized")), c)
    | Some a =>
        if String.eqb (role a) "admin" then
          match List.find (by_id params_id) (users (world c)) with
          | None => (Ok (mkResponse 404 (Message "User not found")), c)
          | Some t =>
              (Ok (mkResponse 200 (Message "User deleted successfully")),
               on_world (fun w => set_users (delete_one (_id t) (users w)) w) c)
          end
        else (Ok (mkResponse 401 (Message "Unauthorized")), c)
    end.
Proof.
  intros Href Hr. unfold delete_route.
  rewrite (guarded_logged_in _ _ _ Href).
  unfold delete_user, try_catch, bind.
  rewrite (session_user_id_logged_in _ _ Href).
  rewrite findById_reliable by assumption.
  destruct (List.find (by_id (SessionUser.id su)) (users (world c))) as [a|];
    [| reflexivity].
  destruct (String.eqb (role a) "admin"); simpl; [| reflexivity].
  rewrite findById_reliable by assumption.
  destruct (List.find (by_id params_id) (users (world c))) as [t|];
    [| reflexivity].
  unfold remove, bind. rewrite await_reliable by assumption. reflexivity.
Qed.

(** C5.  On an authenticated delete, no store operation failing: an actor
    who is not found or whose role is not "admin" gets 401 "Unauthorized"
    whatever the target is; an admin gets 404 "User not found" for an absent
    target; for an existing target the record is deleted and the answer is
    200 "User deleted successfully", after which a lookup by the target's id
    finds nothing (ids being unique in the collection), and neither does a
    lookup by the target's identity (identities being unique). *)
Theorem delete_route_outcomes (params_id : ObjectId) (c : Ctx) (su : SessionUser.t) :
  user_reference c = Some su -> reliable c ->
  ((List.find (by_id (SessionUser.id su)) (users (world c)) = None \/
    (exists a, List.find (by_id (SessionUser.id su)) (users (world c)) = Some a /\
               role a <> "admin")) ->
   delete_route params_id c = (Ok (mkResponse 401 (Message "Unauthorized")), c)) /\
  (forall a, List.find (by_id (SessionUser.id su)) (users (world c)) = Some a ->
   role a = "admin" ->
   (List.find (by_id params_id) (users (world c)) = None ->
    delete_route params_id c = (Ok (mkResponse 404 (Message "User not found")), c)) /\
   (forall t, List.find (by_id params_id) (users (world c)) = Some t ->
    exists c',
      delete_route params_id c =
        (Ok (mkResponse 200 (Message "User deleted successfully")), c') /\
      users (world c') = delete_one params_id (users (world c)) /\
      (NoDup (map _id (users (world c))) ->
       List.find (by_id params_id) (users (world c')) = None) /\
      (NoDup (map username (users (world c))) ->
       List.find (by_username (username t)) (users (world c')) = None))).
Proof.
  intros Href Hr. rewrite (delete_route_reliable _ _ _ Href Hr). split.
  - intros [-> | (a & -> & Hrole)]; [reflexivity |].
    destruct (String.eqb_spec (role a) "admin"); [contradiction | reflexivity].
  - intros a -> Hrole. rewrite Hrole. simpl. split.
    + intros ->. reflexivity.
    + intros t Ht. rewrite Ht. eexists. split; [reflexivity |].
      simpl. rewrite (find_by_id_id _ _ _ Ht). split; [reflexivity |].
      split; [apply delete_one_gone |].
      intros Hnd. now apply delete_one_gone_by_username.
Qed.

(** C9.  An admin may delete their own record: with the target id equal to
    the actor's id the answer is 200 "User deleted successfully" and the
    actor's record is taken out of the collection; no case of the handler
    rejects self-deletion. *)
Theorem admin_may_delete_self (c : Ctx) (su : SessionUser.t) (a : User) :
  user_reference c = Some su -> reliable c ->
  List.find (by_id (SessionUser.id su)) (users (world c)) = Some a ->
  role a = "admin" ->
  exists c' l1 l2,
    delete_route (SessionUser.id su) c =
      (Ok (mkResponse 200 (Message "User deleted successfully")), c') /\
    users (world c) = l1 ++ a :: l2 /\
    users (world c') = l1 ++ l2 /\
    (NoDup (map _id (users (world c))) ->
     List.find (by_id (SessionUser.id su)) (users (world c')) = None).
Proof.
  intros Href Hr Hfind Hrole.
  rewrite (delete_route_reliable _ _ _ Href Hr), Hfind, Hrole. simpl.
  destruct (delete_one_split _ _ _ Hfind) as (l1 & l2 & Hl & Hdel & _).
  rewrite (find_by_id_id _ _ _ Hfind).
  eexists; exists l1, l2. split; [reflexivity |]. simpl.
  repeat split; auto. apply delete_one_gone.
Qed.

Lemma delete_route_outcomes_witness :
  delete_route 0 (mkCtx three_sessions (Some alice_session)) =
    (Ok (mkResponse 401 (Message "Unauthorized")), mkCtx three_sessions (Some alice_session)) /\
  delete_route 5 (mkCtx three_sessions (Some root_session)) =
    (Ok (mkResponse 404 (Message "User not found")), mkCtx three_sessions (Some root_session)) /\
  exists c',
    delete_route 1 (mkCtx three_sessions (Some root_session)) =
      (Ok (mkResponse 200 (Message "User deleted successfully")), c') /\
    users (world c') = [root_user] /\
    List.find (by_id 1) (users (world c')) = None.
Proof.
  split; [| split].
  - apply (proj1 (delete_route_outcomes 0 (mkCtx three_sessions (Some alice_session))
                    (SessionUser.mk 1 "alice") eq_refl eq_refl)).
    right. exists alice_user. split; [reflexivity | discriminate].
  - apply (proj1 (proj2 (delete_route_outcomes 5 (mkCtx three_sessions (Some root_session))
                           (SessionUser.mk 0 "root") eq_refl eq_refl)
                    root_user eq_refl eq_refl)).
    reflexivity.
  - destruct (proj2 (proj2 (delete_route_outcomes 1
                              (mkCtx three_sessions (Some root_session))
                              (SessionUser.mk 0 "root") eq_refl eq_refl)
                       root_user eq_refl eq_refl) alice_user eq_refl)
      as (c' & Hrun & Husers & Hgone & _).
    exists c'. split; [exact Hrun |]. split; [exact Husers |].
    apply Hgone. simpl. apply NoDup_cons. split; [| apply NoDup_singleton].
    intros Hin. apply list_elem_of_In in Hin. simpl in Hin.
    destruct Hin as [Hin | []]. discriminate Hin.
Defined.

Lemma admin_may_delete_self_witness :
  exists c' l1 l2,
    delete_route 0 (mkCtx three_sessions (Some root_session)) =
      (Ok (mkResponse 200 (Message "User deleted successfully")), c') /\
    [root_user; alice_user] = l1 ++ root_user :: l2 /\
    users (world c') = l1 ++ l2.
Proof.
  destruct (admin_may_delete_self (mkCtx three_sessions (Some root_session))
              (SessionUser.mk 0 "root") root_user eq_refl eq_refl eq_refl eq_refl)
    as (c' & l1 & l2 & Hrun & Hsplit & Husers & _).
  exists c', l1, l2. split; [exact Hrun |]. split; [exact Hsplit | exact Husers].
Defined.

(** A step of the fault schedule changes neither the users nor the
    session of the request. *)
Lemma await_frame (o : Op) (c : Ctx) :
  users (world (snd (await o c))) = users (world c) /\
  session (snd (await o c)) = session c /\
  sessions (world (snd (await o c))) = sessions (world c).
Proof.
  unfold await. destruct (faults (world c)) as [|[] fs]; simpl; auto.
Qed.


Lemma wp_ret {A} (a : A) c Q : Q (Ok a) c -> wp (ret a) c Q.
Proof. exact (fun q => q). Qed.

Lemma wp_bind {A B} (m : M A) (k : A -> M B) c Q :
  wp m c (fun r c1 =>
            match r with
            | Ok a => wp (k a) c1 Q
            | Throw e => Q (Throw e) c1
            end) ->
  wp (bind m k) c Q.
Proof. unfold wp, bind. destruct (m c) as [[a|e] c1]; auto. Qed.

Lemma wp_try_catch {A} (body : M A) (handler : Error -> M A) c Q :
  wp body c (fun r c1 =>
               match r with
               | Ok a => Q (Ok a) c1
               | Throw e => wp (handler e) c1 Q
               end) ->
  wp (try_catch body handler) c Q.
Proof. unfold wp, try_catch. destruct (body c) as [[a|e] c1]; auto. Qed.

Lemma wp_gets {A} (f : Ctx -> A) c Q : Q (Ok (f c)) c -> wp (gets f) c Q.
Proof. exact (fun q => q). Qed.

Lemma wp_modify (f : Ctx -> Ctx) c Q : Q (Ok tt) (f c) -> wp (modify f) c Q.
Proof. exact (fun q => q). Qed.

(** An awaited operation either goes on or rejects; in both cases only the
    fault schedule has moved. *)
Lemma wp_await (o : Op) c Q :
  (forall fs, Q (Ok tt) (on_world (set_faults fs) c)) ->
  (forall fs, Q (Throw (Rejected o)) (on_world (set_faults fs) c)) ->
  wp (await o) c Q.
Proof.
  intros Hok Hthrow. unfold wp, await.
  destruct (faults (world c)) as [|[] fs] eqn:Hf; simpl; auto.
  specialize (Hok []). rewrite <- Hf in Hok.
  destruct c as [[] ?]. exact Hok.
Qed.

Lemma wp_run {A} (m : M A) c Q :
  wp m c Q -> exists r c', m c = (r, c') /\ Q r c'.
Proof. intros Hq. exists (fst (m c)), (snd (m c)). split; [apply surjective_pairing | exact Hq]. Qed.

Ltac wp_step :=
  first
    [ apply wp_try_catch
    | apply wp_bind
    | apply wp_await; intros ?
    | apply wp_gets
    | apply wp_modify
    | apply wp_ret ].

Lemma wp_isAuthenticated c Q :
  Q (Ok (match user_reference c with
         | Some _ => Next
         | None => Sent deny_401
         end)) c ->
  wp isAuthenticated c Q.
Proof. unfold wp. rewrite isAuthenticated_eq. exact (fun q => q). Qed.

Lemma wp_session_user_id c Q :
  (forall su, user_reference c = Some su -> Q (Ok (SessionUser.id su)) c) ->
  (user_reference c = None -> Q (Throw TypeError) c) ->
  wp session_user_id c Q.
Proof.
  unfold wp, session_user_id, user_reference.
  destruct (session c) as [s|]; [destruct (user s) |]; simpl; auto.
Qed.


Lemma delete_route_effect (params_id : ObjectId) (c : Ctx) :
  exists r c', delete_route params_id c = (Ok r, c') /\ delete_effect params_id c r c'.
Proof.
  assert (Hwp : wp (delete_route params_id) c (fun res c' =>
    exists r, res = Ok r /\ delete_effect params_id c r c')).
  { unfold delete_effect.
    unfold delete_route, guarded. wp_step. apply wp_isAuthenticated.
    destruct (user_reference c) as [su0|];
      [| apply wp_ret; eexists; split; [reflexivity | right; simpl; auto]].
    unfold delete_user. wp_step. wp_step.
    apply wp_session_user_id;
      [intros su _ | intros _; apply wp_ret; eexists; split; [reflexivity | right; simpl; auto]].
    unfold findById, remove, send_message, send_error.
    repeat wp_step; simpl.
    all: try (eexists; split; [reflexivity | right; simpl; auto]; fail).
    destruct (List.find (by_id (SessionUser.id su)) (users (world c))) as [a|];
      [destruct (String.eqb (role a) "admin") |]; simpl.
    all: repeat wp_step; simpl.
    all: try (eexists; split; [reflexivity | right; simpl; auto]; fail).
    destruct (List.find (by_id params_id) (users (world c))) as [t|] eqn:Ht.
    all: repeat wp_step; simpl.
    all: try (eexists; split; [reflexivity | right; simpl; auto]; fail).
    destruct (delete_one_split _ _ _ Ht) as (l1 & l2 & Hl & Hdel & _).
    eexists; split; [reflexivity | left; simpl]. split; [reflexivity |].
    exists t, l1, l2. rewrite (find_by_id_id _ _ _ Ht), Hdel.
    eauto using find_by_id_id. }
  apply wp_run in Hwp as (res & c' & Hrun & r & -> & Hcases). eauto.
Qed.

(** C8.  Every call of the delete route ends in a response, and either the
    answer is 200 and exactly one User record, the one with the target id,
    has left the collection, or the answer is 401, 404 or 500 and the
    collection is as it was.  In every outcome the records with another id
    are the same before and after. *)
Theorem delete_route_removes_target_or_nothing (params_id : ObjectId) (c : Ctx) :
  exists r c',
    delete_route params_id c = (Ok r, c') /\
    ((status r = 200 /\
      exists t l1 l2,
        _id t = params_id /\
        users (world c) = l1 ++ t :: l2 /\
        users (world c') = l1 ++ l2) \/
     ((status r = 401 \/ status r = 404 \/ status r = 500) /\
      users (world c') = users (world c))) /\
    (forall u, _id u <> params_id ->
       (In u (users (world c')) <-> In u (users (world c)))).
Proof.
  destruct (delete_route_effect params_id c) as (r & c' & Hrun & Hcases).
  exists r, c'. split; [exact Hrun |]. split; [exact Hcases |].
  intros u Hu.
  destruct Hcases as [(_ & t & l1 & l2 & Ht & -> & ->) | (_ & ->)]; [| tauto].
  rewrite !in_app_iff. simpl. split; [tauto |].
  intros [?|[->|?]]; [tauto | congruence | tauto].
Qed.


(* ===================================================================== *)
(** * Requests through the session middleware *)
(* ===================================================================== *)


Section Sessions.
Context `{PasswordHasher}.

(** The probe under a stored session that holds a user: 200, nothing
    changes, no cookie is set. *)
Lemma serve_probe_logged_in (w : World) (sid : Sid) (su : SessionUser.t) :
  sessions w !! sid = Some (Some su) ->
  serve (mkRequest (Some sid) GetIsAuthenticated) w =
    (mkReply (mkResponse 200 (Message "Authenticated")) None, w).
Proof.
  intros Hs. unfold serve, lookup_session. simpl. rewrite Hs. simpl.
  rewrite bool_decide_eq_true_2 by reflexivity. reflexivity.
Qed.

(** The probe under a cookie that the store does not know: 401. *)
Lemma serve_probe_unknown (w : World) (sid : Sid) :
  sessions w !! sid = None ->
  response (fst (serve (mkRequest (Some sid) GetIsAuthenticated) w)) =
    mkResponse 401 (Message "You must be logged in to access this").
Proof.
  intros Hs. unfold serve, lookup_session. simpl. rewrite Hs. reflexivity.
Qed.

(** Logout under a stored session. *)
Lemma serve_logout_known (w : World) (sid : Sid) (payload : option SessionUser.t) :
  sessions w !! sid = Some payload ->
  set_cookie (fst (serve (mkRequest (Some sid) PostLogout) w)) = None /\
  (status (response (fst (serve (mkRequest (Some sid) PostLogout) w))) = 200 ->
   sessions (snd (serve (mkRequest (Some sid) PostLogout) w)) !! sid = None).
Proof.
  intros Hs. unfold serve, lookup_session. simpl. rewrite Hs. simpl.
  unfold logout, bind, gets, destroy, await. simpl.
  destruct (faults w) as [|[] fs]; simpl; split; auto; try discriminate.
  - intros _. apply lookup_delete_eq.
  - intros _. apply lookup_delete_eq.
Qed.

(** What sign-in does, for every session and every fault schedule: a
    response is sent; the stores of users and sessions are not touched;
    and the answer is 200 only if the user was found, the secret verified
    and the user reference was put into the session of the request. *)
Lemma sign_in_effect (name pw : string) (c : Ctx) :
  exists r c',
    sign_in name pw c = (Ok r, c') /\
    sessions (world c') = sessions (world c) /\
    users (world c') = users (world c) /\
    (status r = 200 ->
     exists s u,
       session c = Some s /\
       List.find (by_username name) (users (world c)) = Some u /\
       bcrypt_verify pw (password u) = true /\
       session c' =
         Some (mkSession (sessionID s) (Some (SessionUser.mk (_id u) (username u))))).
Proof.
  assert (Hwp : wp (sign_in name pw) c (fun res c' =>
    exists r, res = Ok r /\
      sessions (world c') = sessions (world c) /\
      users (world c') = users (world c) /\
      (status r = 200 ->
       exists s u,
         session c = Some s /\
         List.find (by_username name) (users (world c)) = Some u /\
         bcrypt_verify pw (password u) = true /\
         session c' =
           Some (mkSession (sessionID s) (Some (SessionUser.mk (_id u) (username u))))))).
  { unfold sign_in, findOne, compare, console_log, send_message, send_error.
    repeat wp_step; simpl.
    all: try (eexists; split; [reflexivity |]; simpl; repeat split; auto; discriminate).
    destruct (List.find (by_username name) (users (world c))) as [u|] eqn:Hu.
    all: repeat wp_step; simpl.
    all: try (eexists; split; [reflexivity |]; simpl; repeat split; auto; discriminate).
    destruct (bcrypt_verify pw (password u)) eqn:Hv.
    all: repeat wp_step; simpl.
    all: try (eexists; split; [reflexivity |]; simpl; repeat split; auto; discriminate).
    unfold wp, assign_session_user. simpl.
    destruct (session c) as [s|] eqn:Hs; simpl.
    all: repeat wp_step; simpl.
    all: try (eexists; split; [reflexivity |]; simpl; repeat split; auto; discriminate).
    eexists; split; [reflexivity |]; simpl; repeat split; auto.
    intros _. exists s, u. auto. }
  apply wp_run in Hwp as (res & c' & Hrun & r & -> & Hrest). eauto.
Qed.

End Sessions.

Section Lifecycle.
Context `{PasswordHasher}.

Lemma lookup_session_Some (ck : option Sid) (w : World) (s : Session) :
  lookup_session ck w = Some s ->
  ck = Some (sessionID s) /\ sessions w !! sessionID s = Some (user s).
Proof.
  unfold lookup_session. destruct ck as [sid|]; [| discriminate].
  destruct (sessions w !! sid) as [p|] eqn:Hp; [| discriminate].
  intros [= <-]. simpl. auto.
Qed.

(** After a sign-in that answered 200, the cookie that the client holds
    names a stored session with a user reference. *)
Lemma serve_sign_in_success (ck : option Sid) (name pw : string) (w : World) :
  status (response (fst (serve (mkRequest ck (PostSignIn name pw)) w))) = 200 ->
  exists sid u,
    cookie_jar ck (fst (serve (mkRequest ck (PostSignIn name pw)) w)) = Some sid /\
    List.find (by_username name) (users w) = Some u /\
    sessions (snd (serve (mkRequest ck (PostSignIn name pw)) w)) !! sid =
      Some (Some (SessionUser.mk (_id u) (username u))).
Proof.
  unfold serve. simpl.
  destruct (lookup_session ck w) as [s0|] eqn:Hlk.
  - destruct (sign_in_effect name pw (mkCtx w (Some s0)))
      as (r & c' & Hrun & Hsess & Husers & H200).
    rewrite Hrun. simpl in *.
    destruct (session c') as [s1|] eqn:Hs1.
    + destruct (bool_decide (user s1 = user s0)) eqn:Hmod; simpl.
      * intros Hst. destruct (H200 Hst) as (s & u & [= <-] & Hu & _ & [= ->]).
        apply bool_decide_eq_true_1 in Hmod. simpl in Hmod.
        apply lookup_session_Some in Hlk as [-> Hstored].
        exists (sessionID s0), u. unfold cookie_jar. simpl.
        rewrite Hsess, Hstored, <- Hmod. auto.
      * intros Hst. destruct (H200 Hst) as (s & u & [= <-] & Hu & _ & [= ->]).
        exists (sessionID s0), u. unfold cookie_jar. simpl.
        rewrite lookup_insert_eq. auto.
    + simpl. intros Hst. destruct (H200 Hst) as (s & u & _ & _ & _ & [=]).
  - destruct (sign_in_effect name pw
                (mkCtx (set_next_sid (S (next_sid w)) w) (Some (mkSession (next_sid w) None))))
      as (r & c' & Hrun & Hsess & Husers & H200).
    rewrite Hrun. simpl in *.
    destruct (session c') as [s1|] eqn:Hs1; simpl.
    + intros Hst. destruct (H200 Hst) as (s & u & [= <-] & Hu & _ & [= ->]).
      exists (next_sid w), u. unfold cookie_jar. simpl.
      rewrite lookup_insert_eq. auto.
    + intros Hst. destruct (H200 Hst) as (s & u & _ & _ & _ & [=]).
Qed.

(** C7.  After a sign-in that answered 200, the probe sent with the cookie
    of that session answers 200 and changes nothing; and after a logout on
    that session that answered 200, the same probe answers 401. *)
Theorem sign_in_probe_logout_probe
    (ck : option Sid) (name pw : string) (w w1 w3 : World) (rp1 rp3 : Reply) :
  serve (mkRequest ck (PostSignIn name pw)) w = (rp1, w1) ->
  status (response rp1) = 200 ->
  serve (mkRequest (cookie_jar ck rp1) PostLogout) w1 = (rp3, w3) ->
  status (response rp3) = 200 ->
  (exists u, List.find (by_username name) (users w) = Some u) /\
  serve (mkRequest (cookie_jar ck rp1) GetIsAuthenticated) w1 =
    (mkReply (mkResponse 200 (Message "Authenticated")) None, w1) /\
  cookie_jar (cookie_jar ck rp1) rp3 = cookie_jar ck rp1 /\
  status (response (fst (serve (mkRequest (cookie_jar ck rp1) GetIsAuthenticated) w3))) = 401.
Proof.
  intros Hin Hst1 Hout Hst3.
  pose proof (serve_sign_in_success ck name pw w) as Hsucc.
  rewrite Hin in Hsucc. simpl in Hsucc.
  destruct (Hsucc Hst1) as (sid & u & Hck & Hu & Hstored).
  rewrite Hck in *.
  destruct (serve_logout_known w1 sid _ Hstored) as [Hnocookie Hgone].
  rewrite Hout in Hnocookie, Hgone. simpl in Hnocookie, Hgone.
  split; [eauto |]. split; [eapply serve_probe_logged_in; eassumption |].
  split.
  - unfold cookie_jar. rewrite Hnocookie. reflexivity.
  - rewrite serve_probe_unknown by auto. reflexivity.
Qed.

(** For a registered user with the right secret a sign-in answers 200
    when no external operation fails, and the user reference is put into
    the session. *)
Lemma sign_in_reliable (name pw : string) (c : Ctx) (u : User) (s : Session) :
  reliable c ->
  List.find (by_username name) (users (world c)) = Some u ->
  bcrypt_verify pw (password u) = true ->
  session c = Some s ->
  sign_in name pw c =
    (Ok (mkResponse 200 (Message "Logged in successfully")),
     set_session
       (Some (mkSession (sessionID s) (Some (SessionUser.mk (_id u) (username u))))) c).
Proof.
  intros Hr Hu Hv Hs. unfold sign_in, try_catch, bind.
  rewrite findOne_reliable, Hu by assumption.
  unfold compare, bind. rewrite await_reliable by assumption. simpl.
  rewrite Hv. unfold assign_session_user. rewrite Hs. reflexivity.
Qed.

Lemma serve_sign_in_registered (ck : option Sid) (name pw : string) (w : World) (u : User) :
  faults w = [] ->
  List.find (by_username name) (users w) = Some u ->
  bcrypt_verify pw (password u) = true ->
  response (fst (serve (mkRequest ck (PostSignIn name pw)) w)) =
    mkResponse 200 (Message "Logged in successfully").
Proof.
  intros Hf Hu Hv. unfold serve. simpl.
  destruct (lookup_session ck w) as [s0|].
  - rewrite (sign_in_reliable name pw _ u s0) by auto. simpl.
    destruct (negb _); reflexivity.
  - rewrite (sign_in_reliable name pw _ u (mkSession (next_sid w) None)) by auto.
    reflexivity.
Qed.

End Lifecycle.

Lemma sign_in_probe_logout_probe_witness :
  let r1 := serve (H := tagging_hasher) (mkRequest None (PostSignIn "alice" "pw1")) two_users in
  let ck := cookie_jar None (fst r1) in
  let r3 := serve (H := tagging_hasher) (mkRequest ck PostLogout) (snd r1) in
  status (response (fst r1)) = 200 /\
  status (response (fst r3)) = 200 /\
  serve (H := tagging_hasher) (mkRequest ck GetIsAuthenticated) (snd r1) =
    (mkReply (mkResponse 200 (Message "Authenticated")) None, snd r1) /\
  status (response (fst (serve (H := tagging_hasher)
                           (mkRequest ck GetIsAuthenticated) (snd r3)))) = 401.
Proof.
  intros r1 ck r3.
  assert (H1 : status (response (fst r1)) = 200) by (vm_compute; reflexivity).
  assert (H3 : status (response (fst r3)) = 200) by (vm_compute; reflexivity).
  split; [exact H1 |]. split; [exact H3 |].
  destruct (sign_in_probe_logout_probe (H := tagging_hasher)
              None "alice" "pw1" two_users (snd r1) (snd r3) (fst r1) (fst r3)
              (surjective_pairing r1) H1 (surjective_pairing r3) H3)
    as (_ & Hprobe & _ & Hafter).
  split; [exact Hprobe | exact Hafter].
Defined.

(* ===================================================================== *)
(** * A session whose user has been deleted *)
(* ===================================================================== *)

Section StaleSession.
Context `{PasswordHasher}.

(** C6, as the code has it.  The Auth Guard looks at the session only, not
    at the Credential Store: under a stored session whose referenced User
    is gone from the store, the probe still answers 200 "Authenticated".
    The delete route, which dereferences the user, answers 401
    "Unauthorized" when no store operation fails, and for every fault
    schedule it ends in a response rather than in an uncaught exception;
    in neither case does anything change in the collection. *)
Theorem stale_session_passes_the_guard
    (w : World) (sid : Sid) (su : SessionUser.t) (params_id : ObjectId) :
  sessions w !! sid = Some (Some su) ->
  List.find (by_id (SessionUser.id su)) (users w) = None ->
  serve (mkRequest (Some sid) GetIsAuthenticated) w =
    (mkReply (mkResponse 200 (Message "Authenticated")) None, w) /\
  (faults w = [] ->
   serve (mkRequest (Some sid) (DeleteUser params_id)) w =
     (mkReply (mkResponse 401 (Message "Unauthorized")) None, w)) /\
  (exists r c',
     delete_route params_id (mkCtx w (Some (mkSession sid (Some su)))) = (Ok r, c') /\
     status r <> 200 /\
     users (world c') = users w).
Proof.
  intros Hs Hgone. split; [now apply (serve_probe_logged_in w sid su) |]. split.
  - intros Hf. unfold serve, lookup_session. simpl. rewrite Hs. simpl.
    pose proof (delete_route_reliable params_id
                  (mkCtx w (Some (mkSession sid (Some su)))) su eq_refl Hf) as Hrun.
    simpl in Hrun. rewrite Hgone in Hrun.
    rewrite Hrun. simpl. rewrite bool_decide_eq_true_2 by reflexivity. reflexivity.
  - assert (Hwp : wp (delete_route params_id) (mkCtx w (Some (mkSession sid (Some su))))
                    (fun res c' => exists r, res = Ok r /\ status r <> 200 /\
                                             users (world c') = users w)).
    { unfold delete_route, guarded. wp_step. apply wp_isAuthenticated. simpl.
      unfold delete_user. wp_step. wp_step.
      apply wp_session_user_id; [intros su' [= <-] | intros [=]].
      unfold findById, send_message, send_error.
      repeat wp_step; simpl.
      all: try (eexists; split; [reflexivity | split; [discriminate | reflexivity]]).
      rewrite Hgone. repeat wp_step.
      eexists; split; [reflexivity | split; [discriminate | reflexivity]]. }
    apply wp_run in Hwp as (res & c' & Hrun & r & -> & Hrest). eauto.
Qed.

End StaleSession.


(** C6, as the claim words it, fails on the code: after root has deleted
    alice, alice's session (cookie 0) is still stored, her record can no
    longer be found, and the probe under her session answers 200, not
    401. *)
Lemma stale_session_counterexample :
  let w := snd (serve_all (H := tagging_hasher) delete_under_session two_users) in
  map (fun rp => status (response rp))
      (fst (serve_all (H := tagging_hasher) delete_under_session two_users)) =
    [200; 200; 200] /\
  sessions w !! 0 = Some (Some (SessionUser.mk 1 "alice")) /\
  List.find (by_id 1) (users w) = None /\
  List.find (by_username "alice") (users w) = None /\
  response (fst (serve (H := tagging_hasher) (mkRequest (Some 0) GetIsAuthenticated) w)) =
    mkResponse 200 (Message "Authenticated").
Proof. vm_compute. repeat split; reflexivity. Qed.

Lemma stale_session_passes_the_guard_witness :
  let w := snd (serve_all (H := tagging_hasher) delete_under_session two_users) in
  serve (H := tagging_hasher) (mkRequest (Some 0) GetIsAuthenticated) w =
    (mkReply (mkResponse 200 (Message "Authenticated")) None, w) /\
  serve (H := tagging_hasher) (mkRequest (Some 0) (DeleteUser 0)) w =
    (mkReply (mkResponse 401 (Message "Unauthorized")) None, w).
Proof.
  intros w.
  assert (Hs : sessions w !! 0 = Some (Some (SessionUser.mk 1 "alice")))
    by (vm_compute; reflexivity).
  assert (Hgone : List.find (by_id 1) (users w) = None) by (vm_compute; reflexivity).
  destruct (stale_session_passes_the_guard (H := tagging_hasher)
              w 0 (SessionUser.mk 1 "alice") 0 Hs Hgone) as (Hprobe & Hdel & _).
  split; [exact Hprobe | apply Hdel; vm_compute; reflexivity].
Defined.

(* ===================================================================== *)
(** * The invariant of the Credential Store *)
(* ===================================================================== *)

Section Invariant.
Context `{PasswordHasher}.







End Invariant.

(* ===================================================================== *)
(** * The scenario of the specification *)
(* ===================================================================== *)

(** Sign-up of alice, a second sign-up under the same identity, a sign-in
    with a wrong secret, a sign-in with the right one, the probe under the
    new cookie, logout, the probe again. *)
Example concrete_scenario :
  map (fun rp => response rp)
      (fst (serve_all (H := tagging_hasher)
              [ mkRequest None (PostSignUp "alice" "pw1");
                mkRequest None (PostSignUp "alice" "pw2");
                mkRequest None (PostSignIn "alice" "wrong");
                mkRequest None (PostSignIn "alice" "pw1");
                mkRequest (Some 3) GetIsAuthenticated;
                mkRequest (Some 3) PostLogout;
                mkRequest (Some 3) GetIsAuthenticated ]
              (mkWorld [root_user] 1 ∅ 0 [] []))) =
    [ mkResponse 201 (Message "User registered successfully.");
      mkResponse 400 (Message "Username already taken.");
      mkResponse 401 (Message "Authentication failed");
      mkResponse 200 (Message "Logged in successfully");
      mkResponse 200 (Message "Authenticated");
      mkResponse 200 (Message "Logout successful");
      mkResponse 401 (Message "You must be logged in to access this") ].
Proof. vm_compute. reflexivity. Qed.

(* ===================================================================== *)
(** * Further properties of the handlers *)
(* ===================================================================== *)

(** Closes the leaf of a [wp] derivation: the response is the one sent and
    the rest follows from the hypotheses. *)
Ltac wp_done :=
  simpl; eexists; split; [reflexivity |]; simpl;
  intuition (eauto; try discriminate; try congruence).

Section SignUp.
Context `{PasswordHasher}.

(** X1.  For every fault schedule a sign-up ends in a response and leaves
    the session of the request and the session store alone.  There are
    three outcomes: 201 with exactly one record appended (the given
    identity, the hashed secret, the role "standard", the next id), and
    then the identity was free; 400 "Username already taken." with the
    collection unchanged, and then the identity was taken; 400 with the
    error of the rejected [findOne] or [save], the collection unchanged. *)
Theorem sign_up_effect (name pw : string) (c : Ctx) :
  exists r c',
    sign_up name pw c = (Ok r, c') /\
    session c' = session c /\
    sessions (world c') = sessions (world c) /\
    ((r = mkResponse 201 (Message "User registered successfully.") /\
      List.find (by_username name) (users (world c)) = None /\
      users (world c') =
        users (world c) ++
          [mkUser (next_oid (world c)) name (bcrypt_hash pw) "standard"]) \/
     (r = mkResponse 400 (Message "Username already taken.") /\
      List.find (by_username name) (users (world c)) <> None /\
      users (world c') = users (world c)) \/
     ((r = mkResponse 400 (ErrorBody (Rejected OpFindOne)) \/
       r = mkResponse 400 (ErrorBody (Rejected OpSave))) /\
      users (world c') = users (world c))).
Proof.
  assert (Hwp : wp (sign_up name pw) c (fun res c' =>
    exists r, res = Ok r /\
      session c' = session c /\
      sessions (world c') = sessions (world c) /\
      ((r = mkResponse 201 (Message "User registered successfully.") /\
        List.find (by_username name) (users (world c)) = None /\
        users (world c') =
          users (world c) ++
            [mkUser (next_oid (world c)) name (bcrypt_hash pw) "standard"]) \/
       (r = mkResponse 400 (Message "Username already taken.") /\
        List.find (by_username name) (users (world c)) <> None /\
        users (world c') = users (world c)) \/
       ((r = mkResponse 400 (ErrorBody (Rejected OpFindOne)) \/
         r = mkResponse 400 (ErrorBody (Rejected OpSave))) /\
        users (world c') = users (world c))))).
  { unfold sign_up, findOne, save, send_message, send_error.
    repeat wp_step; simpl; [| wp_done].
    destruct (List.find (by_username name) (users (world c))) as [u|] eqn:Hu.
    - repeat wp_step. wp_done.
    - wp_step. unfold wp at 1, new_User. simpl. repeat wp_step; wp_done. }
  apply wp_run in Hwp as (res & c' & Hrun & r & -> & Hrest). eauto.
Qed.

End SignUp.

Section Composition.
Context `{PasswordHasher}.

(** A request reaches its route with a session object and with the world
    as it was, up to the counter of session ids; what the route leaves of
    the users, the fault schedule and the console is what the request
    leaves. *)
Lemma serve_dispatch (r : Request) (w : World) :
  exists c0 res c1,
    dispatch (endpoint r) c0 = (res, c1) /\
    users (world c0) = users w /\
    next_oid (world c0) = next_oid w /\
    faults (world c0) = faults w /\
    sessions (world c0) = sessions w /\
    session c0 <> None /\
    response (fst (serve r w)) =
      match res with
      | Ok resp => resp
      | Throw e => mkResponse 500 (ErrorBody e)
      end /\
    users (snd (serve r w)) = users (world c1) /\
    next_oid (snd (serve r w)) = next_oid (world c1) /\
    faults (snd (serve r w)) = faults (world c1).
Proof.
  unfold serve. set (c0 := mkCtx _ _).
  exists c0. destruct (dispatch (endpoint r) c0) as [res c1] eqn:Hrun.
  exists res, c1. split; [reflexivity |].
  assert (Hc0 : users (world c0) = users w /\ next_oid (world c0) = next_oid w /\
                faults (world c0) = faults w /\ sessions (world c0) = sessions w /\
                session c0 <> None).
  { subst c0. simpl. destruct (lookup_session (cookie r) w); simpl; repeat split; discriminate. }
  destruct Hc0 as (? & ? & ? & ? & ?). repeat (split; [assumption |]).
  destruct (session c1) as [s1|]; [destruct (_ || _) |]; simpl; auto.
Qed.

Lemma sign_up_reliable (name pw : string) (c : Ctx) :
  reliable c ->
  sign_up name pw c =
    match List.find (by_username name) (users (world c)) with
    | Some _ => (Ok (mkResponse 400 (Message "Username already taken.")), c)
    | None =>
        (Ok (mkResponse 201 (Message "User registered successfully.")),
         on_world (fun w =>
           set_users
             (users w ++ [mkUser (next_oid (world c)) name (bcrypt_hash pw) "standard"])
             (set_next_oid (S (next_oid w)) w)) c)
    end.
Proof.
  intros Hr. unfold sign_up, try_catch, bind.
  rewrite findOne_reliable by assumption.
  destruct (List.find (by_username name) (users (world c))); [reflexivity |].
  unfold new_User, save, bind. rewrite await_reliable by assumption. reflexivity.
Qed.

Lemma find_by_username_last (l : list User) (u : User) :
  List.find (by_username (username u)) l = None ->
  List.find (by_username (username u)) (l ++ [u]) = Some u.
Proof.
  induction l as [|v l IH]; simpl.
  - intros _. unfold by_username. now rewrite String.eqb_refl.
  - destruct (by_username (username u) v); [discriminate | exact IH].
Qed.

(** What a sign-up leaves when no store operation fails: the identity is
    registered afterwards, whether it was before or not, and nothing is
    scheduled to fail. *)
Lemma serve_sign_up_reliable (ck : option Sid) (name pw : string) (w : World) :
  faults w = [] ->
  faults (snd (serve (mkRequest ck (PostSignUp name pw)) w)) = [] /\
  match List.find (by_username name) (users w) with
  | Some _ =>
      response (fst (serve (mkRequest ck (PostSignUp name pw)) w)) =
        mkResponse 400 (Message "Username already taken.") /\
      users (snd (serve (mkRequest ck (PostSignUp name pw)) w)) = users w
  | None =>
      response (fst (serve (mkRequest ck (PostSignUp name pw)) w)) =
        mkResponse 201 (Message "User registered successfully.") /\
      users (snd (serve (mkRequest ck (PostSignUp name pw)) w)) =
        users w ++ [mkUser (next_oid w) name (bcrypt_hash pw) "standard"]
  end.
Proof.
  intros Hf.
  destruct (serve_dispatch (mkRequest ck (PostSignUp name pw)) w)
    as (c0 & res & c1 & Hrun & Hu & Hn & Hf0 & _ & _ & Hresp & Hu1 & _ & Hf1).
  simpl in Hrun. rewrite sign_up_reliable in Hrun by (unfold reliable; congruence).
  rewrite Hresp, Hu1, Hf1. rewrite Hu, Hn in Hrun.
  destruct (List.find (by_username name) (users w)); injection Hrun as <- <-; simpl.
  - rewrite Hu, Hf0. auto.
  - rewrite Hu, Hf0. auto.
Qed.

(** X2.  When no store operation fails, a sign-up under an identity that
    was just used for a sign-up is a conflict, whatever the first one
    answered and whatever the two secrets and cookies are: 400 "Username
    already taken.", and the collection stays as the first call left it. *)
Theorem second_sign_up_conflicts
    (ck ck' : option Sid) (name pw pw' : string) (w : World) :
  faults w = [] ->
  response (fst (serve (mkRequest ck' (PostSignUp name pw'))
                   (snd (serve (mkRequest ck (PostSignUp name pw)) w)))) =
    mkResponse 400 (Message "Username already taken.") /\
  users (snd (serve (mkRequest ck' (PostSignUp name pw'))
                (snd (serve (mkRequest ck (PostSignUp name pw)) w)))) =
    users (snd (serve (mkRequest ck (PostSignUp name pw)) w)).
Proof.
  intros Hf.
  destruct (serve_sign_up_reliable ck name pw w Hf) as [Hf1 Hfirst].
  set (w1 := snd (serve (mkRequest ck (PostSignUp name pw)) w)) in *.
  assert (Htaken : List.find (by_username name) (users w1) <> None).
  { destruct (List.find (by_username name) (users w)) as [u|] eqn:Hu.
    - destruct Hfirst as [_ ->]. rewrite Hu. discriminate.
    - destruct Hfirst as [_ ->].
      rewrite (find_by_username_last _ (mkUser (next_oid w) name (bcrypt_hash pw) "standard"))
        by exact Hu.
      discriminate. }
  pose proof (serve_sign_up_reliable ck' name pw' w1 Hf1) as [_ Hsecond].
  destruct (List.find (by_username name) (users w1)); [exact Hsecond | contradiction].
Qed.

(** X3.  Sign-up followed by sign-in: when no store operation fails, the
    identity is free and the Password Hasher verifies what it hashed, a
    sign-up answers 201 and a sign-in with the same identity and secret
    then answers 200 "Logged in successfully"; with a secret that the hasher
    does not verify against the stored hash it answers 401. *)
Theorem sign_up_then_sign_in
    (ck ck' : option Sid) (name pw pw' : string) (w : World) :
  (forall p, bcrypt_verify p (bcrypt_hash p) = true) ->
  faults w = [] ->
  List.find (by_username name) (users w) = None ->
  response (fst (serve (mkRequest ck (PostSignUp name pw)) w)) =
    mkResponse 201 (Message "User registered successfully.") /\
  response (fst (serve (mkRequest ck' (PostSignIn name pw))
                   (snd (serve (mkRequest ck (PostSignUp name pw)) w)))) =
    mkResponse 200 (Message "Logged in successfully") /\
  (bcrypt_verify pw' (bcrypt_hash pw) = false ->
   response (fst (serve (mkRequest ck' (PostSignIn name pw'))
                    (snd (serve (mkRequest ck (PostSignUp name pw)) w)))) =
     mkResponse 401 (Message "Authentication failed")).
Proof.
  intros Hhash Hf Hfree.
  destruct (serve_sign_up_reliable ck name pw w Hf) as [Hf1 Hfirst].
  rewrite Hfree in Hfirst. destruct Hfirst as [Hresp Husers].
  set (w1 := snd (serve (mkRequest ck (PostSignUp name pw)) w)) in *.
  set (u := mkUser (next_oid w) name (bcrypt_hash pw) "standard") in *.
  assert (Hu : List.find (by_username name) (users w1) = Some u).
  { rewrite Husers. apply (find_by_username_last (users w) u). exact Hfree. }
  split; [exact Hresp |]. split.
  - apply (serve_sign_in_registered ck' name pw w1 u Hf1 Hu). apply Hhash.
  - intros Hbad.
    destruct (serve_dispatch (mkRequest ck' (PostSignIn name pw')) w1)
      as (c0 & res & c1 & Hrun & Hu0 & _ & Hf0 & _ & _ & Hr & _).
    rewrite Hr. simpl in Hrun.
    unfold sign_in, try_catch, bind in Hrun.
    rewrite findOne_reliable in Hrun by (unfold reliable; congruence).
    rewrite Hu0, Hu in Hrun. unfold compare, bind in Hrun.
    rewrite await_reliable in Hrun by (unfold reliable; congruence).
    simpl in Hrun. rewrite Hbad in Hrun. injection Hrun as <- _. reflexivity.
Qed.

End Composition.

Section SignIn.
Context `{PasswordHasher}.

(** X4.  For every session and every fault schedule a sign-in ends in one
    of three responses and never touches the users or the session store.
    200 "Logged in successfully": only when the request has a session, the
    user was found and the secret verified; the user reference of that user
    is then in the session, under the same session id.  401 "Authentication
    failed": the user was not found or the secret did not verify; session
    and console are as before.  500 with the error: a rejected lookup, a
    rejected comparison (which is awaited only for a user that was found),
    or the [TypeError] of a request without session object whose
    credentials verified; the error is appended to the console and the
    session is as before.  The console grows in the third case only. *)
Theorem sign_in_outcomes (name pw : string) (c : Ctx) :
  exists r c',
    sign_in name pw c = (Ok r, c') /\
    users (world c') = users (world c) /\
    sessions (world c') = sessions (world c) /\
    ((r = mkResponse 200 (Message "Logged in successfully") /\
      console (world c') = console (world c) /\
      exists s u,
        session c = Some s /\
        List.find (by_username name) (users (world c)) = Some u /\
        bcrypt_verify pw (password u) = true /\
        session c' =
          Some (mkSession (sessionID s) (Some (SessionUser.mk (_id u) (username u))))) \/
     (r = mkResponse 401 (Message "Authentication failed") /\
      console (world c') = console (world c) /\
      session c' = session c /\
      (List.find (by_username name) (users (world c)) = None \/
       exists u, List.find (by_username name) (users (world c)) = Some u /\
                 bcrypt_verify pw (password u) = false)) \/
     (exists e,
        r = mkResponse 500 (ErrorBody e) /\
        console (world c') = console (world c) ++ [e] /\
        session c' = session c /\
        (e = Rejected OpFindOne \/
         (e = Rejected OpCompare /\
          exists u, List.find (by_username name) (users (world c)) = Some u) \/
         (e = TypeError /\ session c = None /\
          exists u, List.find (by_username name) (users (world c)) = Some u /\
                    bcrypt_verify pw (password u) = true)))).
Proof.
  assert (Hwp : wp (sign_in name pw) c (fun res c' =>
    exists r, res = Ok r /\
    users (world c') = users (world c) /\
    sessions (world c') = sessions (world c) /\
    ((r = mkResponse 200 (Message "Logged in successfully") /\
      console (world c') = console (world c) /\
      exists s u,
        session c = Some s /\
        List.find (by_username name) (users (world c)) = Some u /\
        bcrypt_verify pw (password u) = true /\
        session c' =
          Some (mkSession (sessionID s) (Some (SessionUser.mk (_id u) (username u))))) \/
     (r = mkResponse 401 (Message "Authentication failed") /\
      console (world c') = console (world c) /\
      session c' = session c /\
      (List.find (by_username name) (users (world c)) = None \/
       exists u, List.find (by_username name) (users (world c)) = Some u /\
                 bcrypt_verify pw (password u) = false)) \/
     (exists e,
        r = mkResponse 500 (ErrorBody e) /\
        console (world c') = console (world c) ++ [e] /\
        session c' = session c /\
        (e = Rejected OpFindOne \/
         (e = Rejected OpCompare /\
          exists u, List.find (by_username name) (users (world c)) = Some u) \/
         (e = TypeError /\ session c = None /\
          exists u, List.find (by_username name) (users (world c)) = Some u /\
                    bcrypt_verify pw (password u) = true)))))).
  { unfold sign_in, findOne, compare, console_log, send_message, send_error.
    repeat wp_step; simpl.
    2: { eexists. split; [reflexivity |]. simpl. repeat split; auto.
         right. right. eexists. repeat split; eauto. }
    destruct (List.find (by_username name) (users (world c))) as [u|] eqn:Hu.
    2: { repeat wp_step. wp_done. }
    repeat wp_step; simpl.
    2: { eexists. split; [reflexivity |]. simpl. repeat split; auto.
         right. right. eexists. repeat split; eauto. }
    destruct (bcrypt_verify pw (password u)) eqn:Hv.
    2: { repeat wp_step. simpl. eexists. split; [reflexivity |]. simpl.
         repeat split; auto. right. left. repeat split; eauto. }
    wp_step. unfold wp at 1, assign_session_user. simpl.
    destruct (session c) as [s|] eqn:Hs; simpl.
    - repeat wp_step. simpl. eexists. split; [reflexivity |]. simpl.
      repeat split; auto. left. repeat split; auto. exists s, u. auto.
    - repeat wp_step. simpl. eexists. split; [reflexivity |]. simpl.
      repeat split; auto. right. right. eexists. repeat split; eauto 10. }
  apply wp_run in Hwp as (res & c' & Hrun & r & -> & Hrest). eauto.
Qed.

(** X5.  A sign-in with valid credentials on a request that has no session
    object cannot log in: the assignment to [req.session.user] throws, the
    answer is 500 with that [TypeError], and the error is on the console. *)
Theorem sign_in_without_session (name pw : string) (c : Ctx) (u : User) :
  session c = None ->
  reliable c ->
  List.find (by_username name) (users (world c)) = Some u ->
  bcrypt_verify pw (password u) = true ->
  sign_in name pw c =
    (Ok (mkResponse 500 (ErrorBody TypeError)),
     on_world (fun w => set_console (console w ++ [TypeError]) w) c).
Proof.
  intros Hs Hr Hu Hv. unfold sign_in, try_catch, bind.
  rewrite findOne_reliable, Hu by assumption.
  unfold compare, bind. rewrite await_reliable by assumption. simpl.
  rewrite Hv. unfold assign_session_user. rewrite Hs. reflexivity.
Qed.

End SignIn.

Section Authentication.
Context `{PasswordHasher}.

(** What a route may do to the sessions: the store only loses records, and
    the session of the request is destroyed, untouched, or given the
    reference of a user whose credentials the sign-in verified. *)
Lemma dispatch_sessions (e : Endpoint) (c : Ctx) :
  wp (dispatch e) c (fun _ c' =>
    (forall k v, sessions (world c') !! k = Some v -> sessions (world c) !! k = Some v) /\
    (session c' = None \/ session c' = session c \/
     exists s name pw u,
       e = PostSignIn name pw /\
       session c = Some s /\
       List.find (by_username name) (users (world c)) = Some u /\
       bcrypt_verify pw (password u) = true /\
       session c' =
         Some (mkSession (sessionID s) (Some (SessionUser.mk (_id u) (username u)))))).
Proof.
  destruct e as [name pw | name pw | | i |]; simpl.
  - unfold sign_up, findOne, save, send_message, send_error.
    repeat wp_step; simpl; auto.
    destruct (List.find (by_username name) (users (world c))).
    + repeat wp_step; simpl; auto.
    + wp_step. unfold wp at 1, new_User. simpl. repeat wp_step; simpl; auto.
  - unfold sign_in, findOne, compare, console_log, send_message, send_error.
    repeat wp_step; simpl; auto.
    destruct (List.find (by_username name) (users (world c))) as [u|] eqn:Hu.
    2: { repeat wp_step; simpl; auto. }
    repeat wp_step; simpl; auto.
    destruct (bcrypt_verify pw (password u)) eqn:Hv.
    2: { repeat wp_step; simpl; auto. }
    wp_step. unfold wp at 1, assign_session_user. simpl.
    destruct (session c) as [s|] eqn:Hs; simpl.
    + repeat wp_step. simpl. split; [auto |]. right. right.
      exists s, name, pw, u. auto.
    + repeat wp_step; simpl; auto.
  - unfold wp. destruct (session c) as [s|] eqn:Hs.
    + destruct (logout_with_session c s Hs) as (Hgone & _ & Hrest).
      split; [| left; exact Hgone].
      destruct (destroy_fails c).
      * destruct Hrest as [_ ->]. auto.
      * destruct Hrest as [_ ->]. intros k v Hk.
        apply lookup_delete_Some in Hk. tauto.
    + rewrite logout_no_session by assumption. simpl. rewrite Hs. auto.
  - unfold delete_route, guarded. wp_step. apply wp_isAuthenticated.
    destruct (user_reference c); [| apply wp_ret; auto].
    unfold delete_user, findById, remove, send_message, send_error.
    wp_step. wp_step. apply wp_session_user_id; [intros su _ | intros _].
    all: repeat wp_step; simpl; auto.
    destruct (List.find (by_id (SessionUser.id su)) (users (world c))) as [a|];
      [destruct (String.eqb (role a) "admin") |]; simpl.
    all: repeat wp_step; simpl; auto.
    destruct (List.find (by_id i) (users (world c))) as [tgt|].
    all: repeat wp_step; simpl; auto.
  - unfold is_authenticated_route, guarded. wp_step. apply wp_isAuthenticated.
    destruct (user_reference c); apply wp_ret; auto.
Qed.

(** X6.  No request puts a user reference into a stored session except a
    sign-in whose credentials verified, whatever the fault schedule: if
    after a request a stored session holds a user reference, then either
    that session held it before, or the request was a sign-in, its user was
    found in the Credential Store, the secret verified against the stored
    hash, and the reference is that user's id and identity. *)
Theorem session_user_comes_from_sign_in
    (r : Request) (w : World) (sid : Sid) (su : SessionUser.t) :
  sessions (snd (serve r w)) !! sid = Some (Some su) ->
  sessions w !! sid = Some (Some su) \/
  exists name pw u,
    endpoint r = PostSignIn name pw /\
    List.find (by_username name) (users w) = Some u /\
    bcrypt_verify pw (password u) = true /\
    su = SessionUser.mk (_id u) (username u).
Proof.
  unfold serve.
  set (s0 := match lookup_session (cookie r) w with
             | Some s => s
             | None => mkSession (next_sid w) None
             end).
  set (w0 := match lookup_session (cookie r) w with
             | Some _ => w
             | None => set_next_sid (S (next_sid w)) w
             end).
  assert (Hw0 : sessions w0 = sessions w /\ users w0 = users w).
  { subst w0. destruct (lookup_session (cookie r) w); auto. }
  destruct Hw0 as [Hsess0 Husers0].
  pose proof (dispatch_sessions (endpoint r) (mkCtx w0 (Some s0))) as Hd.
  unfold wp in Hd.
  destruct (dispatch (endpoint r) (mkCtx w0 (Some s0))) as [res c1].
  simpl in Hd. destruct Hd as [Hshrink Hreq].
  rewrite Hsess0 in Hshrink. rewrite Husers0 in Hreq.
  destruct (session c1) as [s1|] eqn:Hs1; [| simpl; auto].
  destruct (_ || _) eqn:Hsave; simpl; [| auto].
  destruct (decide (sid = sessionID s1)) as [-> | Hne].
  - rewrite lookup_insert_eq. intros [= Hsu].
    destruct Hreq as [[=] | [[= ->] | (s & name & pw & u & He & [= <-] & Hu & Hv & [= ->])]].
    + left. subst s0.
      destruct (lookup_session (cookie r) w) as [s|] eqn:Hlk.
      * apply lookup_session_Some in Hlk as [_ Hstored].
        rewrite Hstored, Hsu. reflexivity.
      * discriminate Hsu.
    + right. simpl in Hsu. injection Hsu as <-. eauto 10.
  - rewrite lookup_insert_ne by congruence. auto.
Qed.

End Authentication.

Section Collection.
Context `{PasswordHasher}.

(** How a record can be in the collection after a route has run: it was
    there before, or the route was a sign-up that made it. *)
Lemma dispatch_users (e : Endpoint) (c : Ctx) :
  wp (dispatch e) c (fun _ c' =>
    forall u, In u (users (world c')) ->
      In u (users (world c)) \/
      exists name pw,
        e = PostSignUp name pw /\
        u = mkUser (next_oid (world c)) name (bcrypt_hash pw) "standard").
Proof.
  destruct e as [name pw | name pw | | i |]; simpl.
  - unfold sign_up, findOne, save, send_message, send_error.
    repeat wp_step; simpl; auto.
    destruct (List.find (by_username name) (users (world c))).
    + repeat wp_step; simpl; auto.
    + wp_step. unfold wp at 1, new_User. simpl. repeat wp_step; simpl; auto.
      intros u Hin. apply in_app_iff in Hin as [Hin | [<- | []]]; eauto.
  - destruct (sign_in_effect name pw c) as (r & c' & Hrun & _ & Husers & _).
    unfold wp. rewrite Hrun. simpl. rewrite Husers. auto.
  - unfold wp. destruct (session c) as [s|] eqn:Hs.
    + destruct (logout_with_session c s Hs) as (_ & -> & _). auto.
    + rewrite logout_no_session by assumption. auto.
  - destruct (delete_route_effect i c) as (r & c' & Hrun & Heff).
    unfold wp. rewrite Hrun. simpl.
    destruct Heff as [(_ & t & l1 & l2 & _ & -> & ->) | (_ & ->)]; [| auto].
    intros u Hin. left. rewrite in_app_iff in *. simpl. tauto.
  - unfold is_authenticated_route, guarded. wp_step. apply wp_isAuthenticated.
    destruct (user_reference c); apply wp_ret; auto.
Qed.

(** X7.  The only request that adds a record to the collection is a
    sign-up, and what it adds has the role "standard" and the hashed
    secret: a record found in the collection after a request was there
    before, or the request was a sign-up and the record carries its
    identity, the hash of its secret, the role "standard" and the next id.
    In particular no request makes an administrator. *)
Theorem new_user_comes_from_sign_up (r : Request) (w : World) (u : User) :
  In u (users (snd (serve r w))) ->
  In u (users w) \/
  exists name pw,
    endpoint r = PostSignUp name pw /\
    u = mkUser (next_oid w) name (bcrypt_hash pw) "standard".
Proof.
  destruct (serve_dispatch r w)
    as (c0 & res & c1 & Hrun & Hu0 & Hn0 & _ & _ & _ & _ & Hu1 & _).
  pose proof (dispatch_users (endpoint r) c0) as Hd.
  unfold wp in Hd. rewrite Hrun in Hd. simpl in Hd.
  rewrite Hu1, <- Hu0, <- Hn0. apply Hd.
Qed.

(** The delete route for every session and every fault schedule: it never
    touches the sessions, and it answers 200 only for an actor who is in
    the collection with the role "admin" and a target that was found, which
    is then deleted. *)
Lemma delete_route_cases (params_id : ObjectId) (c : Ctx) :
  exists r c',
    delete_route params_id c = (Ok r, c') /\
    session c' = session c /\
    sessions (world c') = sessions (world c) /\
    (status r = 200 ->
     exists su a t,
       user_reference c = Some su /\
       List.find (by_id (SessionUser.id su)) (users (world c)) = Some a /\
       role a = "admin" /\
       List.find (by_id params_id) (users (world c)) = Some t /\
       users (world c') = delete_one params_id (users (world c))).
Proof.
  assert (Hwp : wp (delete_route params_id) c (fun res c' =>
    exists r, res = Ok r /\
      session c' = session c /\
      sessions (world c') = sessions (world c) /\
      (status r = 200 ->
       exists su a t,
         user_reference c = Some su /\
         List.find (by_id (SessionUser.id su)) (users (world c)) = Some a /\
         role a = "admin" /\
         List.find (by_id params_id) (users (world c)) = Some t /\
         users (world c') = delete_one params_id (users (world c))))).
  { unfold delete_route, guarded. wp_step. apply wp_isAuthenticated.
    destruct (user_reference c) as [su0|] eqn:Href; [| apply wp_ret; wp_done].
    unfold delete_user. wp_step. wp_step.
    apply wp_session_user_id;
      [intros su Hsu | intros Hsu; rewrite Href in Hsu; discriminate Hsu].
    rewrite Href in Hsu. injection Hsu as <-.
    unfold findById, remove, send_message, send_error.
    repeat wp_step; simpl; try wp_done.
    destruct (List.find (by_id (SessionUser.id su0)) (users (world c))) as [a|] eqn:Ha;
      [destruct (String.eqb_spec (role a) "admin") as [Hrole|Hrole] |]; simpl.
    all: repeat wp_step; simpl; try wp_done.
    destruct (List.find (by_id params_id) (users (world c))) as [t|] eqn:Ht.
    all: repeat wp_step; simpl; try wp_done.
    exists su0, a, t. rewrite (find_by_id_id _ _ _ Ht). auto. }
  apply wp_run in Hwp as (res & c' & Hrun & r & -> & Hrest). eauto.
Qed.

(** X8.  Authorization does not depend on the store being reliable: for
    every fault schedule, the delete route answers 200 and changes the
    collection only for an actor who is logged in and is found in the
    collection with the role "admin". *)
Theorem delete_needs_admin (params_id : ObjectId) (c : Ctx) :
  exists r c',
    delete_route params_id c = (Ok r, c') /\
    ((exists su a,
        user_reference c = Some su /\
        List.find (by_id (SessionUser.id su)) (users (world c)) = Some a /\
        role a = "admin") \/
     (status r <> 200 /\ users (world c') = users (world c))).
Proof.
  destruct (delete_route_cases params_id c) as (r & c' & Hrun & _ & _ & H200).
  destruct (delete_route_effect params_id c) as (r' & c'' & Hrun' & Heff).
  rewrite Hrun in Hrun'. injection Hrun' as <- <-.
  exists r, c'. split; [exact Hrun |].
  destruct Heff as [(Hst & _) | (Hst & Hsame)].
  - left. destruct (H200 Hst) as (su & a & t & ? & ? & ? & _). eauto.
  - right. split; [| exact Hsame]. intros E. rewrite E in Hst.
    destruct Hst as [? | [? | ?]]; discriminate.
Qed.

(** X9.  Deleting a user never touches sessions: for every session and
    every fault schedule the delete route leaves the session of the request
    and every record of the session store as they were, those that refer
    to the deleted user included. *)
Theorem delete_route_leaves_sessions (params_id : ObjectId) (c : Ctx) :
  session (snd (delete_route params_id c)) = session c /\
  sessions (world (snd (delete_route params_id c))) = sessions (world c).
Proof.
  destruct (delete_route_cases params_id c) as (r & c' & Hrun & Hs & Hss & _).
  rewrite Hrun. simpl. auto.
Qed.

End Collection.

Section AfterDelete.
Context `{PasswordHasher}.

(** X10.  A deleted user cannot sign in again.  If a delete request for the
    id of a user answered 200 and identities are unique in the collection,
    then a sign-in under that user's identity does not answer 200, whatever
    the secret, the cookie and the fault schedule; it answers 401
    "Authentication failed" when no store operation fails. *)
Theorem deleted_user_cannot_sign_in
    (ck ck' : option Sid) (i : ObjectId) (pw : string) (w : World) (t : User) :
  NoDup (map username (users w)) ->
  List.find (by_id i) (users w) = Some t ->
  status (response (fst (serve (mkRequest ck (DeleteUser i)) w))) = 200 ->
  status (response (fst (serve (mkRequest ck' (PostSignIn (username t) pw))
                           (snd (serve (mkRequest ck (DeleteUser i)) w))))) <> 200 /\
  (faults (snd (serve (mkRequest ck (DeleteUser i)) w)) = [] ->
   response (fst (serve (mkRequest ck' (PostSignIn (username t) pw))
                    (snd (serve (mkRequest ck (DeleteUser i)) w)))) =
     mkResponse 401 (Message "Authentication failed")).
Proof.
  intros Hnd Ht Hst.
  set (w1 := snd (serve (mkRequest ck (DeleteUser i)) w)) in *.
  assert (Hgone : List.find (by_username (username t)) (users w1) = None).
  { subst w1.
    destruct (serve_dispatch (mkRequest ck (DeleteUser i)) w)
      as (c0 & res & c1 & Hrun & Hu0 & _ & _ & _ & _ & Hresp & Hu1 & _).
    simpl in Hrun.
    destruct (delete_route_cases i c0) as (r & c' & Hrun' & _ & _ & H200).
    rewrite Hrun in Hrun'. injection Hrun' as -> ->.
    rewrite Hresp in Hst.
    destruct (H200 Hst) as (_ & _ & _ & _ & _ & _ & _ & Hdel).
    rewrite Hu1, Hdel, Hu0. now apply delete_one_gone_by_username. }
  destruct (serve_dispatch (mkRequest ck' (PostSignIn (username t) pw)) w1)
    as (c0 & res & c1 & Hrun & Hu0 & _ & Hf0 & _ & _ & Hresp & _).
  simpl in Hrun. rewrite Hresp. split.
  - destruct (sign_in_effect (username t) pw c0) as (r & c' & Hrun' & _ & _ & H200).
    rewrite Hrun in Hrun'. injection Hrun' as -> ->.
    intros E. destruct (H200 E) as (_ & u & _ & Hu & _).
    rewrite Hu0, Hgone in Hu. discriminate Hu.
  - intros Hf. unfold sign_in, try_catch, bind in Hrun.
    rewrite findOne_reliable in Hrun by (unfold reliable; congruence).
    rewrite Hu0, Hgone in Hrun. injection Hrun as <- _. reflexivity.
Qed.

End AfterDelete.

Section Middleware.
Context `{PasswordHasher}.

(** X11.  Behind the session middleware the branch 400 "You are not logged
    in" of logout is never taken: every request has a session object, so
    for every cookie, known to the store, unknown or absent, logout answers
    200 "Logout successful", or 500 "Could not log out, please try again"
    when the store's destroy fails.  No cookie is set, the collection of
    users is untouched, and after a 200 the store has no record under the
    cookie's id. *)
Theorem logout_behind_middleware (ck : option Sid) (w : World) :
  response (fst (serve (mkRequest ck PostLogout) w)) =
    (if destroy_fails (mkCtx w None)
     then mkResponse 500 (Message "Could not log out, please try again")
     else mkResponse 200 (Message "Logout successful")) /\
  set_cookie (fst (serve (mkRequest ck PostLogout) w)) = None /\
  users (snd (serve (mkRequest ck PostLogout) w)) = users w /\
  (destroy_fails (mkCtx w None) = false ->
   forall sid, ck = Some sid ->
     sessions (snd (serve (mkRequest ck PostLogout) w)) !! sid = None).
Proof.
  unfold serve, destroy_fails. simpl.
  destruct (lookup_session ck w) as [s0|] eqn:Hlk; simpl;
    unfold logout, bind, gets, destroy, await; simpl.
  - apply lookup_session_Some in Hlk as [-> _].
    destruct (faults w) as [|[] fs]; simpl; repeat split; auto; try discriminate.
    + intros _ sid [= <-]. apply lookup_delete_eq.
    + intros _ sid [= <-]. apply lookup_delete_eq.
  - assert (Hunknown : forall sid, ck = Some sid -> sessions w !! sid = None).
    { intros sid ->. unfold lookup_session in Hlk.
      destruct (sessions w !! sid); [discriminate | reflexivity]. }
    destruct (faults w) as [|[] fs]; simpl; repeat split; auto; try discriminate.
    + intros _ sid Hck. rewrite lookup_delete_None. right. auto.
    + intros _ sid Hck. rewrite lookup_delete_None. right. auto.
Qed.

(** X12.  Sign-in does not change the session id.  When the request comes
    with the cookie of a stored session, whatever that session holds, and
    the sign-in answers 200, the client's cookie is still that id and the
    record stored under it now holds the reference of the user who signed
    in. *)
Theorem sign_in_keeps_session_id
    (sid : Sid) (payload : option SessionUser.t) (name pw : string) (w : World) :
  sessions w !! sid = Some payload ->
  status (response (fst (serve (mkRequest (Some sid) (PostSignIn name pw)) w))) = 200 ->
  cookie_jar (Some sid) (fst (serve (mkRequest (Some sid) (PostSignIn name pw)) w)) =
    Some sid /\
  exists u,
    List.find (by_username name) (users w) = Some u /\
    bcrypt_verify pw (password u) = true /\
    sessions (snd (serve (mkRequest (Some sid) (PostSignIn name pw)) w)) !! sid =
      Some (Some (SessionUser.mk (_id u) (username u))).
Proof.
  intros Hs. unfold serve, lookup_session. simpl. rewrite Hs. simpl.
  destruct (sign_in_effect name pw (mkCtx w (Some (mkSession sid payload))))
    as (r & c' & Hrun & Hsess & _ & H200).
  rewrite Hrun. simpl in *.
  destruct (session c') as [s1|] eqn:Hs1.
  - destruct (bool_decide (user s1 = payload)) eqn:Hmod; simpl; intros Hst;
      destruct (H200 Hst) as (s & u & [= <-] & Hu & Hv & [= ->]); simpl in *.
    + apply bool_decide_eq_true_1 in Hmod. unfold cookie_jar. simpl.
      split; [reflexivity |]. exists u. rewrite Hsess, Hs, <- Hmod. auto.
    + unfold cookie_jar. simpl.
      split; [reflexivity |]. exists u. rewrite lookup_insert_eq. auto.
  - simpl. intros Hst. destruct (H200 Hst) as (s & u & _ & _ & _ & [=]).
Qed.


End Middleware.

(* ===================================================================== *)
(** * The further properties at concrete inputs *)
(* ===================================================================== *)

Lemma two_users_invariant : store_invariant two_users.
Proof.
  unfold store_invariant. simpl. repeat split.
  - apply NoDup_cons. split; [| apply NoDup_singleton].
    intros Hin. apply list_elem_of_In in Hin. simpl in Hin.
    destruct Hin as [Hin | []]. discriminate Hin.
  - apply NoDup_cons. split; [| apply NoDup_singleton].
    intros Hin. apply list_elem_of_In in Hin. simpl in Hin.
    destruct Hin as [Hin | []]. discriminate Hin.
  - repeat constructor.
Qed.

Lemma second_sign_up_conflicts_witness :
  response (fst (serve (H := tagging_hasher) (mkRequest None (PostSignUp "bob" "pw4"))
                   (snd (serve (H := tagging_hasher)
                           (mkRequest None (PostSignUp "bob" "pw3")) two_users)))) =
    mkResponse 400 (Message "Username already taken.").
Proof.
  exact (proj1 (second_sign_up_conflicts (H := tagging_hasher)
                  None None "bob" "pw3" "pw4" two_users eq_refl)).
Defined.

Lemma sign_up_then_sign_in_witness :
  response (fst (serve (H := tagging_hasher) (mkRequest None (PostSignIn "bob" "pw3"))
                   (snd (serve (H := tagging_hasher)
                           (mkRequest None (PostSignUp "bob" "pw3")) two_users)))) =
    mkResponse 200 (Message "Logged in successfully").
Proof.
  refine (proj1 (proj2 (sign_up_then_sign_in (H := tagging_hasher)
                          None None "bob" "pw3" "other" two_users _ eq_refl eq_refl))).
  intros p. apply String.eqb_refl.
Defined.

Lemma sign_in_without_session_witness :
  fst (sign_in (H := tagging_hasher) "alice" "pw1" (mkCtx two_users None)) =
    Ok (mkResponse 500 (ErrorBody TypeError)).
Proof.
  rewrite (sign_in_without_session (H := tagging_hasher)
             "alice" "pw1" (mkCtx two_users None) alice_user
             eq_refl eq_refl eq_refl eq_refl).
  reflexivity.
Defined.

Lemma session_user_comes_from_sign_in_witness :
  two_users.(sessions) !! 0 = Some (Some (SessionUser.mk 1 "alice")) \/
  exists name pw u,
    PostSignIn "alice" "pw1" = PostSignIn name pw /\
    List.find (by_username name) (users two_users) = Some u /\
    bcrypt_verify (PasswordHasher := tagging_hasher) pw (password u) = true /\
    SessionUser.mk 1 "alice" = SessionUser.mk (_id u) (username u).
Proof.
  apply (session_user_comes_from_sign_in (H := tagging_hasher)
           (mkRequest None (PostSignIn "alice" "pw1")) two_users 0
           (SessionUser.mk 1 "alice")).
  vm_compute. reflexivity.
Defined.

Lemma new_user_comes_from_sign_up_witness :
  In (mkUser 2 "bob" "$2b$pw3" "standard") (users two_users) \/
  exists name pw,
    PostSignUp "bob" "pw3" = PostSignUp name pw /\
    mkUser 2 "bob" "$2b$pw3" "standard" =
      mkUser (next_oid two_users) name
        (bcrypt_hash (PasswordHasher := tagging_hasher) pw) "standard".
Proof.
  apply (new_user_comes_from_sign_up (H := tagging_hasher)
           (mkRequest None (PostSignUp "bob" "pw3")) two_users
           (mkUser 2 "bob" "$2b$pw3" "standard")).
  vm_compute. auto.
Defined.

Lemma deleted_user_cannot_sign_in_witness :
  response (fst (serve (H := tagging_hasher) (mkRequest None (PostSignIn "alice" "pw1"))
                   (snd (serve (H := tagging_hasher)
                           (mkRequest (Some 7) (DeleteUser 1)) three_sessions)))) =
    mkResponse 401 (Message "Authentication failed").
Proof.
  refine (proj2 (deleted_user_cannot_sign_in (H := tagging_hasher)
                   (Some 7) None 1 "pw1" three_sessions alice_user _ eq_refl _) _).
  - exact (proj1 (proj2 two_users_invariant)).
  - vm_compute. reflexivity.
  - vm_compute. reflexivity.
Defined.

Lemma sign_in_keeps_session_id_witness :
  cookie_jar (Some 9)
    (fst (serve (H := tagging_hasher)
            (mkRequest (Some 9) (PostSignIn "alice" "pw1")) three_sessions)) = Some 9.
Proof.
  refine (proj1 (sign_in_keeps_session_id (H := tagging_hasher)
                   9 None "alice" "pw1" three_sessions _ _)).
  - vm_compute. reflexivity.
  - vm_compute. reflexivity.
Defined.

